(** * llog: a leveled logger (log.go, std.go)

    A shallow embedding of the Go package [llog].  Go strings and byte
    slices are byte sequences ([string]); pointers ([*Logger],
    [*mutexWriter], the destination behind an [io.Writer]) are locations
    in explicit heaps, so that sharing of a sink between a logger and its
    clones is visible; panics and [os.Exit] are outcomes of a call. *)

From Stdlib Require Import ZArith String Ascii List Lia DecimalString.
From stdpp Require Import base option list gmap strings.

Local Open Scope string_scope.
Local Open Scope Z_scope.

(** ** Go values used by the package *)

Definition loc := nat.

(** An [error] value, identified with its message. *)
Definition error := string.

(** Operands of the variadic calls ([...any]). *)
Inductive any :=
| AString (s : string)
| AInt (n : Z)
| ABool (b : bool)
| ANil.

(** One frame of the goroutine's call stack, as [runtime.Caller] reports
    it: the file and line of the call in progress in that frame. *)
Record Frame := mkFrame { frame_file : string; frame_line : Z }.

(** The broken-down wall clock time read by [time.Now()]. *)
Record Time := mkTime {
  t_year : N; t_month : N; t_day : N;
  t_hour : N; t_minute : N; t_second : N;
  t_nanosecond : N
}.

(** How a call ends: it returns, it panics, the process exits
    ([os.Exit]), or the goroutine waits for a mutex that is held. *)
Inductive PanicValue :=
| PanicError (e : error)
| PanicNilDeref.

Inductive Outcome :=
| Returned
| Panicked (p : PanicValue)
| Exited (code : Z)
| Blocked.

(** ** Standard library functions the package calls *)

(** [strconv.Itoa]: decimal text of an integer. *)
Definition strconv_Itoa (n : Z) : string := NilZero.string_of_int (Z.to_int n).

Definition itoa_N (n : N) : string := NilZero.string_of_uint (N.to_uint n).

Fixpoint zeros (k : nat) : string :=
  match k with
  | O => ""
  | S k' => String "0" (zeros k')
  end.

(** Decimal text of [n], zero padded on the left to at least [width]
    digits (the layout elements "2006", "01", "02", "15", "04", "05" and
    ".000" of [time.Format]). *)
Definition pad (width : nat) (n : N) : string :=
  let d := itoa_N n in
  zeros (width - String.length d) ++ d.

(** [t.Format("2006/01/02 15:04:05.000 ")]. *)
Definition time_Format (t : Time) : string :=
  pad 4 (t_year t) ++ "/" ++ pad 2 (t_month t) ++ "/" ++ pad 2 (t_day t) ++ " " ++
  pad 2 (t_hour t) ++ ":" ++ pad 2 (t_minute t) ++ ":" ++ pad 2 (t_second t) ++ "." ++
  pad 3 (t_nanosecond t / 1000000)%N ++ " ".

(** [runtime.Caller(skip)] on a call stack listed innermost frame first:
    frame 0 is the function that calls [runtime.Caller]. *)
Definition runtime_Caller (skip : nat) (stack : list Frame) : option Frame :=
  stack !! skip.

(** The default (%v) text of an operand. *)
Definition format_any (a : any) : string :=
  match a with
  | AString s => s
  | AInt n => strconv_Itoa n
  | ABool true => "true"
  | ABool false => "false"
  | ANil => "<nil>"
  end.

Definition is_string (a : any) : bool :=
  match a with
  | AString _ => true
  | _ => false
  end.

(** Modelled from the spec: [fmt.Sprint] belongs to Go's standard library,
    which is not part of the repository.  Operands are written in their
    default format; a space is inserted between two consecutive operands
    only when neither is a string.  [prevString] is whether the operand
    before was a string, [first] whether no operand was written yet. *)
Fixpoint doPrint (first prevString : bool) (a : list any) : string :=
  match a with
  | [] => ""
  | arg :: rest =>
      (if negb first && negb (is_string arg) && negb prevString then " " else "")
      ++ format_any arg ++ doPrint false (is_string arg) rest
  end.

Definition fmt_Sprint (v : list any) : string := doPrint true false v.

(** The two library functions whose result no property below depends on:
    [strings.ToLower] (Unicode lower casing) and [fmt.Sprintf] (printf
    templating, whose verb syntax is defined by the host library). *)
Class GoLib := {
  strings_ToLower : string -> string;
  fmt_Sprintf : string -> list any -> string
}.

(** ** The destination behind an [io.Writer]

    A destination is known by what it has received so far and by how it
    answers a [Write]: its answer [(n, err)] may depend on everything it
    received before and on the bytes offered.  [err = None] is Go's
    [nil] error. *)
Record Writer := mkWriter {
  behaviour : list string -> string -> Z * option error;
  received : list string
}.

Definition io_Write (d : Writer) (b : string) : Writer * (Z * option error) :=
  (mkWriter (behaviour d) (received d ++ [b]), behaviour d (received d) b).

(** ** log.go *)

(** A byte slice [[]byte]: its elements and the capacity of its backing
    array. *)
Record slice := mkSlice { data : string; cap : nat }.

(** [make([]byte, 0, 1024)]. *)
Definition make_buf : slice := mkSlice "" 1024.

(** [b[:0]]: length zero, same backing array. *)
Definition reslice0 (b : slice) : slice := mkSlice "" (cap b).

(** [append(b, s...)].  The elements are added at the end; the backing
    array is kept while it is large enough and replaced by a larger one
    otherwise (Go promises only that the new one is large enough). *)
Definition append (b : slice) (s : string) : slice :=
  mkSlice (data b ++ s) (Nat.max (cap b) (String.length (data b ++ s))).

(** [type mutexWriter struct { mu sync.Mutex; io.Writer }]: [mu] is
    whether the mutex is held; the embedded interface value is [None]
    when nil and otherwise refers to a destination. *)
Record mutexWriter := mkMutexWriter { mu : bool; mw_Writer : option loc }.

(** [type Level int]. *)
Definition Level := Z.

Definition LevelError : Level := -2.
Definition LevelWarning : Level := -1.
Definition LevelInfo : Level := 0.
Definition LevelDebug : Level := 1.

Definition levelString : gmap Z string :=
  <[LevelError := "[E]"]> (<[LevelWarning := "[W]"]>
  (<[LevelInfo := "[I]"]> (<[LevelDebug := "[D]"]> ∅))).

(** [func (level Level) String() string]: a key that is absent from a Go
    map reads as the zero value, the empty string. *)
Definition Level_String (level : Level) : string :=
  default "" (levelString !! level).

(** [type Logger struct]: [out] is a pointer, [None] when nil. *)
Record Logger := mkLogger {
  out : option loc;
  level : Level;
  tag : string;
  fileAndLine : bool
}.

(** The state of the process that the package reads and writes. *)
Record World := mkWorld {
  loggers : gmap loc Logger;        (* every Logger struct in memory *)
  sinks : gmap loc mutexWriter;     (* every mutexWriter struct in memory *)
  dests : gmap loc Writer;          (* the destinations behind io.Writer values *)
  bufPool : list slice;             (* what was Put into bufPool, latest first *)
  made : nat;                       (* how often bufPool.New built a buffer *)
  now : Time;                       (* what time.Now() reads *)
  std : loc                         (* the package variable std *)
}.

Definition set_loggers (m : gmap loc Logger) (w : World) : World :=
  mkWorld m (sinks w) (dests w) (bufPool w) (made w) (now w) (std w).
Definition set_sinks (m : gmap loc mutexWriter) (w : World) : World :=
  mkWorld (loggers w) m (dests w) (bufPool w) (made w) (now w) (std w).
Definition set_dests (m : gmap loc Writer) (w : World) : World :=
  mkWorld (loggers w) (sinks w) m (bufPool w) (made w) (now w) (std w).

(** [bufPool.New()]: the function stored in the pool's [New] field, which
    builds a buffer.  It does not look at what the pool holds. *)
Definition bufPool_New (w : World) : slice * World :=
  (make_buf,
   mkWorld (loggers w) (sinks w) (dests w) (bufPool w) (S (made w)) (now w) (std w)).

(** [bufPool.Put(buf)]. *)
Definition bufPool_Put (buf : slice) (w : World) : World :=
  mkWorld (loggers w) (sinks w) (dests w) (buf :: bufPool w) (made w) (now w) (std w).

(** What a call of the Write method of a mutexWriter comes to. *)
Inductive WriteResult :=
| Wrote (n : Z) (err : option error)
| WritePanicked (p : PanicValue)
| WriteBlocked.

Definition set_mu (held : bool) (a : loc) (w : World) : World :=
  set_sinks (alter (fun mw => mkMutexWriter held (mw_Writer mw)) a (sinks w)) w.

(** [func (w *mutexWriter) Write(b []byte) (int, error)]: lock, forward
    the bytes to the embedded writer, unlock on the way out (deferred, so
    also when the embedded writer is nil and the call panics). *)
Definition mutexWriter_Write (m : option loc) (b : string) (w : World)
  : World * WriteResult :=
  match m with
  | None => (w, WritePanicked PanicNilDeref)
  | Some a =>
      match sinks w !! a with
      | None => (w, WritePanicked PanicNilDeref)
      | Some mw =>
          if mu mw then (w, WriteBlocked)
          else
            let w1 := set_mu true a w in
            match mw_Writer mw with
            | None => (set_mu false a w1, WritePanicked PanicNilDeref)
            | Some d =>
                match dests w1 !! d with
                | None => (set_mu false a w1, WritePanicked PanicNilDeref)
                | Some dst =>
                    let '(dst', (n, err)) := io_Write dst b in
                    (set_mu false a (set_dests (<[d := dst']> (dests w1)) w1),
                     Wrote n err)
                end
            end
      end
  end.

(** [func (l *Logger) Level() Level]; [None] is the panic of a nil
    receiver. *)
Definition Logger_Level (l : loc) (w : World) : option Level :=
  level <$> loggers w !! l.

(** Assignment to a field of the Logger at [l]. *)
Definition assign (l : loc) (f : Logger -> Logger) (w : World) : World * Outcome :=
  match loggers w !! l with
  | None => (w, Panicked PanicNilDeref)
  | Some _ => (set_loggers (alter f l (loggers w)) w, Returned)
  end.

Definition with_out (o : option loc) (lg : Logger) : Logger :=
  mkLogger o (level lg) (tag lg) (fileAndLine lg).
Definition with_level (lv : Level) (lg : Logger) : Logger :=
  mkLogger (out lg) lv (tag lg) (fileAndLine lg).
Definition with_tag (tg : string) (lg : Logger) : Logger :=
  mkLogger (out lg) (level lg) tg (fileAndLine lg).
Definition with_fileAndLine (b : bool) (lg : Logger) : Logger :=
  mkLogger (out lg) (level lg) (tag lg) b.

(** [func (l *Logger) setLevel(level Level)]. *)
Definition setLevel (l : loc) (lv : Level) (w : World) : World * Outcome :=
  assign l (with_level lv) w.

(** [func (l *Logger) setLevelString(s string)]: a switch without a
    default case. *)
Definition setLevelString `{GoLib} (l : loc) (s : string) (w : World)
  : World * Outcome :=
  let t := strings_ToLower s in
  if bool_decide (t = "error") || bool_decide (t = "e") then setLevel l LevelError w
  else if bool_decide (t = "warning") || bool_decide (t = "w") then setLevel l LevelWarning w
  else if bool_decide (t = "info") || bool_decide (t = "i") then setLevel l LevelInfo w
  else if bool_decide (t = "debug") || bool_decide (t = "d") then setLevel l LevelDebug w
  else (w, Returned).

(** [func (l *Logger) formatHeader(buf *[]byte, level Level)].  [cs] is
    the call stack of the caller, innermost frame first; the frame of
    [formatHeader] itself, stopped at its call of [runtime.Caller] on
    line 103, is put in front of it. *)
Definition formatHeader (l : Logger) (cs : list Frame) (w : World)
    (buf : slice) (lv : Level) : slice :=
  let ts := time_Format (now w) in
  let buf := append buf ts in
  let ls := Level_String lv in
  let buf := append buf ls in
  let buf :=
    if negb (bool_decide (tag l = "")) then
      append (append (append buf "[") (tag l)) "] "
    else buf in
  if fileAndLine l then
    let '(file, line) :=
      match runtime_Caller 3 (mkFrame "log.go" 103 :: cs) with
      | Some f => (frame_file f, frame_line f)
      | None => ("???", 0)
      end in
    let buf := append buf file in
    let buf := append buf ":" in
    let nu := strconv_Itoa line in
    let buf := append buf nu in
    append buf " "
  else buf.

Definition newline : ascii := "010"%char.

(** [s[i]] for an index within the string. *)
Definition index (s : string) (i : nat) : ascii :=
  default "000"%char (String.get i s).

(** [len(s) == 0 || s[len(s)-1] != '\n']. *)
Definition lacks_newline (s : string) : bool :=
  (String.length s =? 0)%nat
  || negb (Ascii.eqb (index s (String.length s - 1)) newline).

(** [func (l *Logger) output(level Level, s string)].  The deferred
    [bufPool.Put(buf)] runs when the function returns and when it panics;
    it does not run while the goroutine waits for the mutex. *)
Definition output (l : loc) (cs : list Frame) (lv : Level) (s : string)
    (w : World) : World * Outcome :=
  match loggers w !! l with
  | None => (w, Panicked PanicNilDeref)
  | Some lg =>
      if lv >? level lg then (w, Returned)
      else
        let '(buf, w1) := bufPool_New w in
        let buf := reslice0 buf in
        let buf := formatHeader lg (mkFrame "log.go" 126 :: cs) w1 buf lv in
        let buf := append buf s in
        let buf := if lacks_newline s then append buf (String newline "") else buf in
        let '(w2, r) := mutexWriter_Write (out lg) (data buf) w1 in
        match r with
        | Wrote _ None => (bufPool_Put buf w2, Returned)
        | Wrote _ (Some err) => (bufPool_Put buf w2, Panicked (PanicError err))
        | WritePanicked p => (bufPool_Put buf w2, Panicked p)
        | WriteBlocked => (w2, Blocked)
        end
  end.

(** [&Logger{...}] and [&mutexWriter{...}]: a struct at an address that
    is not in use. *)
Definition new_Logger (lg : Logger) (w : World) : loc * World :=
  let a := fresh (dom (loggers w)) in
  (a, set_loggers (<[a := lg]> (loggers w)) w).

Definition new_mutexWriter (mw : mutexWriter) (w : World) : loc * World :=
  let a := fresh (dom (sinks w)) in
  (a, set_sinks (<[a := mw]> (sinks w)) w).

(** [func (l *Logger) clone() *Logger]; [None] is the panic of a nil
    receiver. *)
Definition clone (l : loc) (w : World) : option (loc * World) :=
  lg ← loggers w !! l;
  Some (new_Logger (mkLogger (out lg) (level lg) (tag lg) (fileAndLine lg)) w).

Definition WithTag (l : loc) (tg : string) (w : World) : option (loc * World) :=
  '(c, w1) ← clone l w;
  Some (c, (assign c (with_tag tg) w1).1).

Definition WithLevel (l : loc) (lv : Level) (w : World) : option (loc * World) :=
  '(c, w1) ← clone l w;
  Some (c, (assign c (with_level lv) w1).1).

Definition WithOutput (l : loc) (o : option loc) (w : World) : option (loc * World) :=
  '(c, w1) ← clone l w;
  let '(m, w2) := new_mutexWriter (mkMutexWriter false o) w1 in
  Some (c, (assign c (with_out (Some m)) w2).1).

Definition WithFileAndLine (l : loc) (included : bool) (w : World)
  : option (loc * World) :=
  '(c, w1) ← clone l w;
  Some (c, (assign c (with_fileAndLine included) w1).1).

(** The emission methods of [*Logger].  [cs] is the call stack at the
    call site, innermost frame first; each method puts its own frame,
    stopped at its call of [output], in front of it. *)
Definition Logger_Error (l : loc) (cs : list Frame) (v : list any) :=
  output l (mkFrame "log.go" 174 :: cs) LevelError (fmt_Sprint v).

Definition Logger_Errorf `{GoLib} (l : loc) (cs : list Frame) (format : string) (v : list any) :=
  output l (mkFrame "log.go" 178 :: cs) LevelError (fmt_Sprintf format v).

Definition Logger_Warn (l : loc) (cs : list Frame) (v : list any) :=
  output l (mkFrame "log.go" 182 :: cs) LevelWarning (fmt_Sprint v).

Definition Logger_Warnf `{GoLib} (l : loc) (cs : list Frame) (format : string) (v : list any) :=
  output l (mkFrame "log.go" 186 :: cs) LevelWarning (fmt_Sprintf format v).

Definition Logger_Info (l : loc) (cs : list Frame) (v : list any) :=
  output l (mkFrame "log.go" 190 :: cs) LevelInfo (fmt_Sprint v).

Definition Logger_Infof `{GoLib} (l : loc) (cs : list Frame) (format : string) (v : list any) :=
  output l (mkFrame "log.go" 194 :: cs) LevelInfo (fmt_Sprintf format v).

Definition Logger_Debug (l : loc) (cs : list Frame) (v : list any) :=
  output l (mkFrame "log.go" 198 :: cs) LevelDebug (fmt_Sprint v).

Definition Logger_Debugf `{GoLib} (l : loc) (cs : list Frame) (format : string) (v : list any) :=
  output l (mkFrame "log.go" 202 :: cs) LevelDebug (fmt_Sprintf format v).

(** ** std.go *)

(** The two [init] functions: an empty pool, and [std] a Logger with zero
    level, tag and flag whose sink wraps [os.Stderr]. *)
Definition init (stderr : Writer) (t : Time) : World :=
  mkWorld {[ 0%nat := mkLogger (Some 0%nat) 0 "" false ]}
          {[ 0%nat := mkMutexWriter false (Some 0%nat) ]}
          {[ 0%nat := stderr ]}
          [] 0%nat t 0%nat.

Definition Default (w : World) : loc := std w.

Definition SetTag (tg : string) (w : World) : World * Outcome :=
  assign (std w) (with_tag tg) w.

Definition SetOutput (o : option loc) (w : World) : World * Outcome :=
  let '(m, w1) := new_mutexWriter (mkMutexWriter false o) w in
  assign (std w1) (with_out (Some m)) w1.

Definition SetLevelString `{GoLib} (s : string) (w : World) : World * Outcome :=
  setLevelString (std w) s w.

Definition SetLevel (lv : Level) (w : World) : World * Outcome :=
  setLevel (std w) lv w.

Definition SetFileAndLine (included : bool) (w : World) : World * Outcome :=
  assign (std w) (with_fileAndLine included) w.

Definition std_WithTag (tg : string) (w : World) := WithTag (std w) tg w.
Definition std_WithLevel (lv : Level) (w : World) := WithLevel (std w) lv w.
Definition std_WithOutput (o : option loc) (w : World) := WithOutput (std w) o w.
Definition std_WithFileAndLine (included : bool) (w : World) :=
  WithFileAndLine (std w) included w.

Definition Error (cs : list Frame) (v : list any) (w : World) :=
  output (std w) (mkFrame "std.go" 62 :: cs) LevelError (fmt_Sprint v) w.

Definition Errorf `{GoLib} (cs : list Frame) (format : string) (v : list any) (w : World) :=
  output (std w) (mkFrame "std.go" 66 :: cs) LevelError (fmt_Sprintf format v) w.

Definition Warn (cs : list Frame) (v : list any) (w : World) :=
  output (std w) (mkFrame "std.go" 70 :: cs) LevelWarning (fmt_Sprint v) w.

Definition Warnf `{GoLib} (cs : list Frame) (format : string) (v : list any) (w : World) :=
  output (std w) (mkFrame "std.go" 74 :: cs) LevelWarning (fmt_Sprintf format v) w.

Definition Info (cs : list Frame) (v : list any) (w : World) :=
  output (std w) (mkFrame "std.go" 78 :: cs) LevelInfo (fmt_Sprint v) w.

Definition Infof `{GoLib} (cs : list Frame) (format : string) (v : list any) (w : World) :=
  output (std w) (mkFrame "std.go" 82 :: cs) LevelInfo (fmt_Sprintf format v) w.

Definition Debug (cs : list Frame) (v : list any) (w : World) :=
  output (std w) (mkFrame "std.go" 86 :: cs) LevelDebug (fmt_Sprint v) w.

Definition Debugf `{GoLib} (cs : list Frame) (format : string) (v : list any) (w : World) :=
  output (std w) (mkFrame "std.go" 90 :: cs) LevelDebug (fmt_Sprintf format v) w.

(** [os.Exit(code)]. *)
Definition os_Exit (code : Z) (w : World) : World * Outcome := (w, Exited code).

(** Statement sequencing: the second statement runs only when the first
    returned. *)
Definition and_then (f g : World -> World * Outcome) (w : World) : World * Outcome :=
  let '(w1, o) := f w in
  match o with
  | Returned => g w1
  | _ => (w1, o)
  end.

Definition Fatal (cs : list Frame) (v : list any) : World -> World * Outcome :=
  and_then (fun w => output (std w) (mkFrame "std.go" 94 :: cs) LevelError (fmt_Sprint v) w)
           (os_Exit 1).

Definition Fatalf `{GoLib} (cs : list Frame) (format : string) (v : list any)
  : World -> World * Outcome :=
  and_then (fun w => output (std w) (mkFrame "std.go" 99 :: cs) LevelError
                            (fmt_Sprintf format v) w)
           (os_Exit 1).

(** ** The exported operations as one transition system *)

Inductive Method := MError | MWarn | MInfo | MDebug.

(** The message of an emission: operands for the variadic form, a
    template and operands for the template form. *)
Inductive Message :=
| Plain (v : list any)
| Templ (format : string) (v : list any).

Inductive Op :=
| OpLevel (l : loc)
| OpWithTag (l : loc) (tg : string)
| OpWithLevel (l : loc) (lv : Level)
| OpWithOutput (l : loc) (o : option loc)
| OpWithFileAndLine (l : loc) (included : bool)
| OpEmit (l : loc) (m : Method) (cs : list Frame) (msg : Message)
| OpDefault
| OpSetTag (tg : string)
| OpSetOutput (o : option loc)
| OpSetLevelString (s : string)
| OpSetLevel (lv : Level)
| OpSetFileAndLine (included : bool)
| OpStdWithTag (tg : string)
| OpStdWithLevel (lv : Level)
| OpStdWithOutput (o : option loc)
| OpStdWithFileAndLine (included : bool)
| OpStdEmit (m : Method) (cs : list Frame) (msg : Message)
| OpFatal (cs : list Frame) (msg : Message).

Definition is_setter (op : Op) : bool :=
  match op with
  | OpSetTag _ | OpSetOutput _ | OpSetLevelString _ | OpSetLevel _
  | OpSetFileAndLine _ => true
  | _ => false
  end.

Definition emit `{GoLib} (l : loc) (m : Method) (cs : list Frame) (msg : Message)
  : World -> World * Outcome :=
  match m, msg with
  | MError, Plain v => Logger_Error l cs v
  | MError, Templ f v => Logger_Errorf l cs f v
  | MWarn, Plain v => Logger_Warn l cs v
  | MWarn, Templ f v => Logger_Warnf l cs f v
  | MInfo, Plain v => Logger_Info l cs v
  | MInfo, Templ f v => Logger_Infof l cs f v
  | MDebug, Plain v => Logger_Debug l cs v
  | MDebug, Templ f v => Logger_Debugf l cs f v
  end.

Definition std_emit `{GoLib} (m : Method) (cs : list Frame) (msg : Message)
  : World -> World * Outcome :=
  match m, msg with
  | MError, Plain v => Error cs v
  | MError, Templ f v => Errorf cs f v
  | MWarn, Plain v => Warn cs v
  | MWarn, Templ f v => Warnf cs f v
  | MInfo, Plain v => Info cs v
  | MInfo, Templ f v => Infof cs f v
  | MDebug, Plain v => Debug cs v
  | MDebug, Templ f v => Debugf cs f v
  end.

Definition world_of (w : World) (r : option (loc * World)) : World :=
  match r with
  | Some (_, w') => w'
  | None => w
  end.

(** The world after a call of an exported operation. *)
Definition step `{GoLib} (op : Op) (w : World) : World :=
  match op with
  | OpLevel _ | OpDefault => w
  | OpWithTag l tg => world_of w (WithTag l tg w)
  | OpWithLevel l lv => world_of w (WithLevel l lv w)
  | OpWithOutput l o => world_of w (WithOutput l o w)
  | OpWithFileAndLine l b => world_of w (WithFileAndLine l b w)
  | OpEmit l m cs msg => (emit l m cs msg w).1
  | OpSetTag tg => (SetTag tg w).1
  | OpSetOutput o => (SetOutput o w).1
  | OpSetLevelString s => (SetLevelString s w).1
  | OpSetLevel lv => (SetLevel lv w).1
  | OpSetFileAndLine b => (SetFileAndLine b w).1
  | OpStdWithTag tg => world_of w (std_WithTag tg w)
  | OpStdWithLevel lv => world_of w (std_WithLevel lv w)
  | OpStdWithOutput o => world_of w (std_WithOutput o w)
  | OpStdWithFileAndLine b => world_of w (std_WithFileAndLine b w)
  | OpStdEmit m cs msg => (std_emit m cs msg w).1
  | OpFatal cs (Plain v) => (Fatal cs v w).1
  | OpFatal cs (Templ f v) => (Fatalf cs f v w).1
  end.

(** ** Predicates used in the statements *)

(** The logger's sink can take a write: its mutexWriter exists and is
    not held, and wraps the destination at [d], whose state is [dst]. *)
Definition sink_ready (w : World) (lg : Logger) (d : loc) (dst : Writer) : Prop :=
  exists a mw, out lg = Some a /\ sinks w !! a = Some mw /\ mu mw = false
               /\ mw_Writer mw = Some d /\ dests w !! d = Some dst.

(** What the destination at [d] has received, one entry per [Write]. *)
Definition received_at (w : World) (d : loc) : list string :=
  match dests w !! d with
  | Some dst => received dst
  | None => []
  end.

(** The line terminator as a string. *)
Definition nl : string := String newline "".

(** The header [output] builds: [formatHeader] run on the emptied buffer. *)
Definition header (lg : Logger) (cs : list Frame) (w : World) (lv : Level) : string :=
  data (formatHeader lg (mkFrame "log.go" 126 :: cs) w (reslice0 make_buf) lv).

(** The text [output] hands to the sink for logger [lg], level [lv] and
    body [s], when called with caller stack [cs] in world [w]. *)
Definition line_of (lg : Logger) (cs : list Frame) (w : World) (lv : Level)
    (s : string) : string :=
  header lg cs w lv ++ s ++ (if lacks_newline s then nl else "").

(** The buffer [output] has built when it calls the sink. *)
Definition built (lg : Logger) (cs : list Frame) (w : World) (lv : Level)
    (s : string) : slice :=
  let buf := formatHeader lg (mkFrame "log.go" 126 :: cs) w (reslice0 make_buf) lv in
  let buf := append buf s in
  if lacks_newline s then append buf (String newline "") else buf.

(** The outcome of [output] after a write that answered [err]. *)
Definition after_write (err : option error) : Outcome :=
  match err with
  | None => Returned
  | Some e => Panicked (PanicError e)
  end.

(** How many line terminators a text ends with. *)
Fixpoint count_newlines (l : list ascii) : nat :=
  match l with
  | c :: r => if Ascii.eqb c newline then S (count_newlines r) else O
  | [] => O
  end.

Definition trailing_newlines (s : string) : nat :=
  count_newlines (rev (list_ascii_of_string s)).

(** In [w'] the address [c] holds a Logger [x] that did not exist in
    [w], and every other address holds what it held in [w]. *)
Definition is_clone (w w' : World) (c : loc) (x : Logger) : Prop :=
  loggers w !! c = None /\ loggers w' !! c = Some x
  /\ forall a, a <> c -> loggers w' !! a = loggers w !! a.

(** A text that ends with a byte other than the line terminator. *)
Definition ends_plain (s : string) : Prop :=
  exists p c, s = p ++ String c "" /\ Ascii.eqb c newline = false.

(** The call site text for a call stack whose frame 0 is the function
    that asks: the frame three up as "file:line ", or the unknown
    marker when the stack is not that deep. *)
Definition site_text (stack : list Frame) : string :=
  match runtime_Caller 3 stack with
  | Some f => frame_file f ++ ":" ++ strconv_Itoa (frame_line f) ++ " "
  | None => "???:0 "
  end.

(** ** A concrete library instance and concrete destinations *)

Definition lower_ascii (c : ascii) : ascii :=
  let n := nat_of_ascii c in
  if ((65 <=? n) && (n <=? 90))%nat then ascii_of_nat (n + 32) else c.

Fixpoint lower (s : string) : string :=
  match s with
  | EmptyString => EmptyString
  | String c r => String (lower_ascii c) (lower r)
  end.

Definition type_name (a : any) : string :=
  match a with
  | AString _ => "string"
  | AInt _ => "int"
  | ABool _ => "bool"
  | ANil => "<nil>"
  end.

Definition bad_verb (c : ascii) (a : any) : string :=
  match a with
  | ANil => "%!" ++ String c "(<nil>)"
  | _ => "%!" ++ String c "(" ++ type_name a ++ "=" ++ format_any a ++ ")"
  end.

Definition verb (c : ascii) (a : any) : string :=
  match a with
  | AString s => if Ascii.eqb c "v" || Ascii.eqb c "s" then s else bad_verb c a
  | AInt n => if Ascii.eqb c "v" || Ascii.eqb c "d" then strconv_Itoa n else bad_verb c a
  | ABool b => if Ascii.eqb c "v" || Ascii.eqb c "t" then format_any a else bad_verb c a
  | ANil => if Ascii.eqb c "v" then "<nil>" else bad_verb c a
  end.

Fixpoint extra_args (a : list any) : string :=
  match a with
  | [] => ""
  | [x] => match x with ANil => "<nil>" | _ => type_name x ++ "=" ++ format_any x end
  | x :: r => match x with ANil => "<nil>" | _ => type_name x ++ "=" ++ format_any x end
              ++ ", " ++ extra_args r
  end.

(** Templates made of plain text, "%%" and the verbs v, d, s and t
    without flags, width or precision, the way [fmt.Sprintf] treats
    them. *)
Fixpoint sprintf_verbs (f : string) (a : list any) : string :=
  match f with
  | EmptyString =>
      match a with
      | [] => ""
      | _ => "%!(EXTRA " ++ extra_args a ++ ")"
      end
  | String c r =>
      if Ascii.eqb c "%" then
        match r with
        | EmptyString => "%!(NOVERB)" ++ sprintf_verbs r a
        | String c' r' =>
            if Ascii.eqb c' "%" then String "%" (sprintf_verbs r' a)
            else match a with
                 | [] => "%!" ++ String c' "(MISSING)" ++ sprintf_verbs r' []
                 | x :: a' => verb c' x ++ sprintf_verbs r' a'
                 end
        end
      else String c (sprintf_verbs r a)
  end.

Definition ascii_lib : GoLib :=
  {| strings_ToLower := lower; fmt_Sprintf := sprintf_verbs |}.

(** A destination that accepts everything, like a [bytes.Buffer]. *)
Definition accepting : Writer :=
  mkWriter (fun _ b => (Z.of_nat (String.length b), None)) [].

(** A destination that refuses every write, like a closed file. *)
Definition closed_file : Writer :=
  mkWriter (fun _ _ => (0, Some "file already closed")) [].

Definition noon : Time := mkTime 2024 3 9 12 0 5 42000000.

(** A call stack of a program whose [main] calls the package on line 17
    of main.go. *)
Definition main_stack : list Frame :=
  [mkFrame "main.go" 17; mkFrame "proc.go" 250].

(** The world right after [init], with a destination that accepts
    everything, and the Logger [std] points to in it. *)
Definition fresh_world : World := init accepting noon.
Definition std_logger : Logger := mkLogger (Some 0%nat) 0 "" false.

(** The same with a destination that refuses every write. *)
Definition broken_world : World := init closed_file noon.

(** [fresh_world] after [WithTag("worker")] on the default logger; the
    clone is at address 1. *)
Definition worker_world : World := world_of fresh_world (std_WithTag "worker" fresh_world).
Definition worker_logger : Logger := mkLogger (Some 0%nat) 0 "worker" false.

(** ** What the emission methods pass on *)

(** The level an emission method passes to [output]. *)
Definition method_level (m : Method) : Level :=
  match m with
  | MError => LevelError
  | MWarn => LevelWarning
  | MInfo => LevelInfo
  | MDebug => LevelDebug
  end.

Definition method_token (m : Method) : string :=
  match m with
  | MError => "[E]"
  | MWarn => "[W]"
  | MInfo => "[I]"
  | MDebug => "[D]"
  end.

(** The body an emission method passes to [output]. *)
Definition message_body `{GoLib} (msg : Message) : string :=
  match msg with
  | Plain v => fmt_Sprint v
  | Templ f v => fmt_Sprintf f v
  end.

(** The part of a line that shows the tag. *)
Definition tag_text (lg : Logger) : string :=
  if bool_decide (tag lg = "") then "" else "[" ++ tag lg ++ "] ".

(** The part of a line that shows where an emission method was called
    from, [cs] being the call stack at that call, innermost first. *)
Definition caller_text (lg : Logger) (cs : list Frame) : string :=
  if fileAndLine lg then
    match cs with
    | site :: _ => frame_file site ++ ":" ++ strconv_Itoa (frame_line site) ++ " "
    | [] => "???:0 "
    end
  else "".


(** The sink of [lg] is not held and has no destination: its embedded
    writer is nil, or the logger has no sink at all. *)
Definition sink_missing (w : World) (lg : Logger) : Prop :=
  out lg = None
  \/ exists a mw, out lg = Some a /\ sinks w !! a = Some mw /\ mu mw = false
                  /\ mw_Writer mw = None.

(** * Properties *)

(** ** Byte strings *)

Lemma string_app_cons (x : ascii) (a b : string) :
  String x a ++ b = String x (a ++ b).
Proof. reflexivity. Qed.

Lemma string_app_nil_l (a : string) : "" ++ a = a.
Proof. reflexivity. Qed.

Lemma string_app_assoc (a b c : string) : (a ++ b) ++ c = a ++ b ++ c.
Proof.
  induction a as [|x a IH]; [reflexivity |].
  now rewrite !string_app_cons, IH.
Qed.

Lemma string_app_nil_r (a : string) : a ++ "" = a.
Proof.
  induction a as [|x a IH]; [reflexivity |].
  now rewrite string_app_cons, IH.
Qed.

Lemma string_length_app (a b : string) :
  String.length (a ++ b) = (String.length a + String.length b)%nat.
Proof.
  induction a as [|x a IH]; [reflexivity |].
  rewrite string_app_cons. simpl. now rewrite IH.
Qed.

Lemma list_of_string_app (a b : string) :
  list_ascii_of_string (a ++ b)
  = (list_ascii_of_string a ++ list_ascii_of_string b)%list.
Proof.
  induction a as [|x a IH]; [reflexivity |].
  rewrite string_app_cons. simpl. now rewrite IH.
Qed.

(** Every string is empty or has a last byte. *)
Lemma string_snoc (s : string) : s = "" \/ exists p c, s = p ++ String c "".
Proof.
  induction s as [|x s IH]; [now left | right].
  destruct IH as [-> | (p & c & ->)].
  - now exists "", x.
  - now exists (String x p), c.
Qed.

Lemma get_last (p : string) (c : ascii) :
  String.get (String.length (p ++ String c "") - 1) (p ++ String c "") = Some c.
Proof.
  rewrite string_length_app; simpl.
  replace (String.length p + 1 - 1)%nat with (0 + String.length p)%nat by lia.
  now rewrite <- append_correct2.
Qed.

Lemma lacks_newline_empty : lacks_newline "" = true.
Proof. reflexivity. Qed.

Lemma lacks_newline_snoc (p : string) (c : ascii) :
  lacks_newline (p ++ String c "") = negb (Ascii.eqb c newline).
Proof.
  unfold lacks_newline, index. rewrite get_last; simpl.
  rewrite string_length_app; simpl.
  now replace (String.length p + 1 =? 0)%nat with false
    by (symmetry; apply Nat.eqb_neq; lia).
Qed.

Lemma count_newlines_app (x y : list ascii) :
  count_newlines (x ++ y)
  = if (count_newlines x =? length x)%nat
    then (length x + count_newlines y)%nat
    else count_newlines x.
Proof.
  induction x as [|c x IH]; simpl; [reflexivity |].
  destruct (Ascii.eqb c newline); [| reflexivity].
  rewrite IH. simpl. now destruct (count_newlines x =? length x)%nat.
Qed.

Lemma trailing_newlines_snoc (p : string) (c : ascii) :
  trailing_newlines (p ++ String c "")
  = if Ascii.eqb c newline then S (trailing_newlines p) else O.
Proof.
  unfold trailing_newlines. rewrite list_of_string_app, rev_app_distr.
  reflexivity.
Qed.

Lemma ends_plain_app (a b : string) : ends_plain b -> ends_plain (a ++ b).
Proof.
  intros (p & c & -> & Hc). exists (a ++ p), c.
  split; [now rewrite string_app_assoc | exact Hc].
Qed.

Lemma ends_plain_trailing (s : string) : ends_plain s -> trailing_newlines s = O.
Proof.
  intros (p & c & -> & Hc). now rewrite trailing_newlines_snoc, Hc.
Qed.

Lemma trailing_newlines_app (a b : string) :
  trailing_newlines a = O ->
  trailing_newlines (a ++ b) = trailing_newlines b.
Proof.
  unfold trailing_newlines. intros Ha.
  rewrite list_of_string_app, rev_app_distr, count_newlines_app, Ha.
  destruct (Nat.eqb_spec (count_newlines (rev (list_ascii_of_string b)))
                         (length (rev (list_ascii_of_string b)))); lia.
Qed.

(** ** The header *)

Lemma Level_String_cases (lv : Level) :
  Level_String lv = "[E]" \/ Level_String lv = "[W]" \/ Level_String lv = "[I]"
  \/ Level_String lv = "[D]" \/ Level_String lv = "".
Proof.
  unfold Level_String, levelString.
  destruct (decide (lv = LevelError)) as [->|]; [now left |].
  destruct (decide (lv = LevelWarning)) as [->|]; [now right; left |].
  destruct (decide (lv = LevelInfo)) as [->|]; [now right; right; left |].
  destruct (decide (lv = LevelDebug)) as [->|]; [now right; right; right; left |].
  right; right; right; right.
  now rewrite !lookup_insert_ne, lookup_empty by congruence.
Qed.

Lemma formatHeader_now (lg : Logger) cs (w w' : World) buf lv :
  now w = now w' -> formatHeader lg cs w buf lv = formatHeader lg cs w' buf lv.
Proof. intros E. unfold formatHeader. now rewrite E. Qed.

Lemma formatHeader_data (lg : Logger) cs (w : World) buf lv :
  data (formatHeader lg cs w buf lv)
  = data buf ++ time_Format (now w) ++ Level_String lv
    ++ (if bool_decide (tag lg = "") then "" else "[" ++ tag lg ++ "] ")
    ++ (if fileAndLine lg then site_text (mkFrame "log.go" 103 :: cs) else "").
Proof.
  unfold formatHeader, site_text.
  generalize (runtime_Caller 3 (mkFrame "log.go" 103 :: cs)); intros r.
  destruct (bool_decide (tag lg = "")), (fileAndLine lg), r; simpl;
    rewrite ?string_app_assoc, ?string_app_nil_r; reflexivity.
Qed.

Lemma header_text (lg : Logger) cs (w : World) lv :
  header lg cs w lv
  = time_Format (now w) ++ Level_String lv
    ++ (if bool_decide (tag lg = "") then "" else "[" ++ tag lg ++ "] ")
    ++ (if fileAndLine lg
        then site_text (mkFrame "log.go" 103 :: mkFrame "log.go" 126 :: cs)
        else "").
Proof. unfold header. now rewrite formatHeader_data. Qed.

Lemma time_Format_plain (t : Time) : ends_plain (time_Format t).
Proof.
  unfold time_Format. repeat apply ends_plain_app. now exists "", " "%char.
Qed.

Lemma site_text_plain (st : list Frame) : ends_plain (site_text st).
Proof.
  unfold site_text. destruct (runtime_Caller 3 st).
  - repeat apply ends_plain_app. now exists "", " "%char.
  - now exists "???:0", " "%char.
Qed.

(** The header never ends with a line terminator. *)
Lemma header_plain (lg : Logger) cs (w : World) lv : ends_plain (header lg cs w lv).
Proof.
  rewrite header_text.
  destruct (fileAndLine lg).
  { repeat apply ends_plain_app. apply site_text_plain. }
  destruct (bool_decide (tag lg = "")).
  - rewrite !string_app_nil_r.
    destruct (Level_String_cases lv) as [E|[E|[E|[E|E]]]]; rewrite E.
    1-4: apply ends_plain_app;
      eexists (String _ (String _ "")), _; split; reflexivity.
    rewrite string_app_nil_r. apply time_Format_plain.
  - rewrite string_app_nil_r. repeat apply ends_plain_app.
    now exists "]", " "%char.
Qed.

Lemma built_data (lg : Logger) cs (w : World) lv s :
  data (built lg cs w lv s) = line_of lg cs w lv s.
Proof.
  unfold built, line_of, header.
  destruct (lacks_newline s); simpl.
  - now rewrite string_app_assoc.
  - now rewrite string_app_nil_r.
Qed.

(** ** The sink and the emission path *)

Lemma set_mu_release (a : loc) (mw : mutexWriter) (m : gmap loc Writer) (w : World) :
  sinks w !! a = Some mw -> mu mw = false ->
  set_mu false a (set_dests m (set_mu true a w)) = set_dests m w.
Proof.
  intros Hs Hm. unfold set_mu, set_dests, set_sinks; simpl. f_equal.
  apply map_eq; intros i. destruct (decide (a = i)) as [<-|Hne].
  - rewrite !lookup_alter_eq, Hs. destruct mw; simpl in *; now subst.
  - now rewrite !lookup_alter_ne.
Qed.

Lemma Write_ready (w : World) (lg : Logger) d dst b :
  sink_ready w lg d dst ->
  mutexWriter_Write (out lg) b w
  = (set_dests (<[d := mkWriter (behaviour dst) (received dst ++ [b])]> (dests w)) w,
     Wrote (behaviour dst (received dst) b).1 (behaviour dst (received dst) b).2).
Proof.
  intros (a & mw & Ho & Hs & Hm & Hw & Hd).
  unfold mutexWriter_Write. rewrite Ho, Hs, Hm, Hw. simpl. rewrite Hd.
  unfold io_Write. destruct (behaviour dst (received dst) b) as [n err]; simpl.
  f_equal. now apply set_mu_release with mw.
Qed.

Lemma output_hidden (w : World) l lg cs lv s :
  loggers w !! l = Some lg -> lv > level lg -> output l cs lv s w = (w, Returned).
Proof.
  intros Hl Hgt. unfold output. rewrite Hl.
  now replace (lv >? level lg) with true by (symmetry; apply Z.gtb_lt; lia).
Qed.

Lemma output_visible (w : World) l lg cs lv s d dst :
  loggers w !! l = Some lg -> lv <= level lg -> sink_ready w lg d dst ->
  output l cs lv s w
  = (bufPool_Put (built lg cs w lv s)
       (set_dests (<[d := mkWriter (behaviour dst)
                             (received dst ++ [line_of lg cs w lv s])]> (dests w))
                  (bufPool_New w).2),
     after_write (behaviour dst (received dst) (line_of lg cs w lv s)).2).
Proof.
  intros Hl Hle Hr. unfold output. rewrite Hl.
  replace (lv >? level lg) with false
    by (symmetry; rewrite Z.gtb_ltb; apply Z.ltb_ge; lia).
  cbn [bufPool_New].
  set (w1 := mkWorld _ _ _ _ _ _ _).
  assert (Hb : (if lacks_newline s
                then append (append (formatHeader lg (mkFrame "log.go" 126 :: cs) w1
                                       (reslice0 make_buf) lv) s) (String newline "")
                else append (formatHeader lg (mkFrame "log.go" 126 :: cs) w1
                               (reslice0 make_buf) lv) s)
               = built lg cs w lv s).
  { unfold built. now rewrite (formatHeader_now lg _ w1 w). }
  rewrite Hb.
  rewrite (Write_ready w1 lg d dst) by exact Hr.
  rewrite built_data.
  now destruct (behaviour dst (received dst) (line_of lg cs w lv s)) as [n [e|]].
Qed.

Lemma received_after_output (w : World) l lg cs lv s d dst :
  loggers w !! l = Some lg -> lv <= level lg -> sink_ready w lg d dst ->
  received_at (output l cs lv s w).1 d = (received dst ++ [line_of lg cs w lv s])%list.
Proof.
  intros Hl Hle Hr. rewrite (output_visible w l lg cs lv s d dst) by assumption.
  unfold received_at. simpl. now rewrite lookup_insert_eq.
Qed.

Lemma init_ready (stderr : Writer) (t : Time) :
  sink_ready (init stderr t) std_logger 0%nat stderr.
Proof. exists 0%nat, (mkMutexWriter false (Some 0%nat)). now repeat split. Qed.

(** C1: an emission at a level numerically above the logger's minimum
    returns at once and leaves the whole world as it was (no buffer is
    built, the pool and every destination are untouched); an emission at
    a level at or below the minimum builds one buffer and hands the
    formatted line to the destination in exactly one Write. *)
Theorem output_level_gate (w : World) l lg cs lv s :
  loggers w !! l = Some lg ->
  (lv > level lg -> output l cs lv s w = (w, Returned))
  /\ (lv <= level lg -> forall d dst, sink_ready w lg d dst ->
        received_at (output l cs lv s w).1 d
        = (received dst ++ [line_of lg cs w lv s])%list
        /\ made (output l cs lv s w).1 = S (made w)).
Proof.
  intros Hl. split.
  - intros Hgt. now apply output_hidden with lg.
  - intros Hle d dst Hr. split.
    + now apply received_after_output.
    + now rewrite (output_visible w l lg cs lv s d dst).
Qed.

Lemma output_level_gate_witness :
  output 0%nat main_stack LevelDebug "x" fresh_world = (fresh_world, Returned)
  /\ received_at (output 0%nat main_stack LevelInfo "x" fresh_world).1 0%nat
     = ["2024/03/09 12:00:05.042 [I]x" ++ nl]
  /\ made (output 0%nat main_stack LevelInfo "x" fresh_world).1 = 1%nat.
Proof.
  split.
  - apply (proj1 (output_level_gate fresh_world 0%nat std_logger main_stack
                    LevelDebug "x" eq_refl)).
    reflexivity.
  - assert (Hle : LevelInfo <= level std_logger) by discriminate.
    exact (proj2 (output_level_gate fresh_world 0%nat std_logger main_stack
                    LevelInfo "x" eq_refl) Hle 0%nat accepting
                 (init_ready accepting noon)).
Defined.

(** C2: every visible emission builds its buffer with the pool's
    constructor and puts it into the pool afterwards, whatever the write
    answered; what the pool held before is still in it, so no buffer is
    ever taken out of the pool. *)
Theorem output_builds_new_buffer (w : World) l lg cs lv s d dst :
  loggers w !! l = Some lg -> lv <= level lg -> sink_ready w lg d dst ->
  made (output l cs lv s w).1 = S (made w)
  /\ bufPool (output l cs lv s w).1 = built lg cs w lv s :: bufPool w.
Proof.
  intros Hl Hle Hr. now rewrite (output_visible w l lg cs lv s d dst).
Qed.

Lemma output_builds_new_buffer_witness :
  let w1 := (Info main_stack [AString "a"] fresh_world).1 in
  let w2 := (Info main_stack [AString "b"] w1).1 in
  bufPool w1 = [mkSlice ("2024/03/09 12:00:05.042 [I]a" ++ nl) 1024]
  /\ made w2 = S (made w1)
  /\ bufPool w2 = built std_logger (mkFrame "std.go" 78 :: main_stack) w1 LevelInfo "b"
                 :: bufPool w1.
Proof.
  split; [reflexivity |].
  apply (output_builds_new_buffer (Info main_stack [AString "a"] fresh_world).1 0%nat
           std_logger (mkFrame "std.go" 78 :: main_stack) LevelInfo "b" 0%nat
           (mkWriter (behaviour accepting) ["2024/03/09 12:00:05.042 [I]a" ++ nl])).
  - reflexivity.
  - discriminate.
  - exists 0%nat, (mkMutexWriter false (Some 0%nat)). now repeat split.
Defined.

(** C6: when the destination's Write answers an error the emission
    panics with that error, when it answers no error the emission
    returns; in both cases the destination was written to exactly
    once. *)
Theorem output_write_failure (w : World) l lg cs lv s d dst :
  loggers w !! l = Some lg -> lv <= level lg -> sink_ready w lg d dst ->
  (forall e, (behaviour dst (received dst) (line_of lg cs w lv s)).2 = Some e ->
             (output l cs lv s w).2 = Panicked (PanicError e))
  /\ ((behaviour dst (received dst) (line_of lg cs w lv s)).2 = None ->
      (output l cs lv s w).2 = Returned)
  /\ received_at (output l cs lv s w).1 d
     = (received dst ++ [line_of lg cs w lv s])%list.
Proof.
  intros Hl Hle Hr. repeat split.
  - intros e He. rewrite (output_visible w l lg cs lv s d dst) by assumption.
    simpl. now rewrite He.
  - intros He. rewrite (output_visible w l lg cs lv s d dst) by assumption.
    simpl. now rewrite He.
  - now apply received_after_output.
Qed.

Lemma output_write_failure_witness :
  (output 0%nat main_stack LevelError "disk" broken_world).2
  = Panicked (PanicError "file already closed")
  /\ (output 0%nat main_stack LevelError "disk" fresh_world).2 = Returned.
Proof.
  split.
  - apply (output_write_failure broken_world 0%nat std_logger main_stack LevelError
             "disk" 0%nat closed_file eq_refl); [discriminate | apply init_ready | reflexivity].
  - apply (output_write_failure fresh_world 0%nat std_logger main_stack LevelError
             "disk" 0%nat accepting eq_refl); [discriminate | apply init_ready | reflexivity].
Defined.

(** ** The shape of the line *)

Lemma lacks_newline_trailing (s : string) :
  lacks_newline s = (trailing_newlines s =? 0)%nat.
Proof.
  destruct (string_snoc s) as [-> | (p & c & ->)]; [reflexivity |].
  rewrite lacks_newline_snoc, trailing_newlines_snoc.
  now destruct (Ascii.eqb c newline).
Qed.

Lemma line_trailing_newlines (lg : Logger) cs (w : World) lv s :
  trailing_newlines (line_of lg cs w lv s) = Nat.max 1 (trailing_newlines s).
Proof.
  unfold line_of.
  pose proof (ends_plain_trailing _ (header_plain lg cs w lv)) as Hh.
  destruct (string_snoc s) as [-> | (p & c & ->)].
  - rewrite lacks_newline_empty. unfold nl.
    now rewrite string_app_nil_l, trailing_newlines_snoc, Hh.
  - rewrite lacks_newline_snoc. destruct (Ascii.eqb c newline) eqn:Ec; simpl.
    + rewrite string_app_nil_r, trailing_newlines_app by exact Hh.
      rewrite trailing_newlines_snoc, Ec. lia.
    + unfold nl. rewrite <- !string_app_assoc, trailing_newlines_snoc.
      simpl. rewrite string_app_assoc, trailing_newlines_app by exact Hh.
      now rewrite !trailing_newlines_snoc, Ec.
Qed.

(** C4, as stated, fails: a body that ends with two line terminators is
    written unchanged, and the line then ends with two of them. *)
Lemma output_two_terminators :
  received_at (Info main_stack [AString ("x" ++ nl ++ nl)] fresh_world).1 0%nat
  = ["2024/03/09 12:00:05.042 [I]x" ++ nl ++ nl]
  /\ trailing_newlines ("2024/03/09 12:00:05.042 [I]x" ++ nl ++ nl) <> 1%nat.
Proof. split; [reflexivity | discriminate]. Qed.

(** C4, amended: the line handed to the sink is the header, the body as
    it is, and one line terminator added exactly when the body does not
    end with one (an empty body included); it therefore always ends with
    a terminator, and with as many as the body ends with when the body
    ends with any: exactly one unless the body ends with two or more. *)
Theorem output_line_terminator (w : World) l lg cs lv s d dst :
  loggers w !! l = Some lg -> lv <= level lg -> sink_ready w lg d dst ->
  exists ln,
    received_at (output l cs lv s w).1 d = (received dst ++ [ln])%list
    /\ ln = header lg cs w lv ++ s ++ (if (trailing_newlines s =? 0)%nat then nl else "")
    /\ lacks_newline s = (trailing_newlines s =? 0)%nat
    /\ trailing_newlines ln = Nat.max 1 (trailing_newlines s).
Proof.
  intros Hl Hle Hr. exists (line_of lg cs w lv s). repeat split.
  - now apply received_after_output.
  - unfold line_of. now rewrite lacks_newline_trailing.
  - apply lacks_newline_trailing.
  - apply line_trailing_newlines.
Qed.

Lemma output_line_terminator_witness :
  exists ln,
    received_at (output 0%nat main_stack LevelInfo ("a" ++ nl ++ "b") fresh_world).1 0%nat
    = ([] ++ [ln])%list
    /\ ln = header std_logger main_stack fresh_world LevelInfo ++ ("a" ++ nl ++ "b") ++ nl
    /\ lacks_newline ("a" ++ nl ++ "b") = true
    /\ trailing_newlines ln = 1%nat.
Proof.
  assert (Hle : LevelInfo <= level std_logger) by discriminate.
  exact (output_line_terminator fresh_world 0%nat std_logger main_stack LevelInfo
           ("a" ++ nl ++ "b") 0%nat accepting eq_refl Hle (init_ready accepting noon)).
Defined.

(** ** The variadic form *)

Lemma Sprint_spacing (a b : any) (rest : list any) :
  fmt_Sprint (a :: b :: rest)
  = format_any a ++ (if is_string a || is_string b then "" else " ")
    ++ fmt_Sprint (b :: rest).
Proof.
  unfold fmt_Sprint; simpl.
  now destruct (is_string a), (is_string b).
Qed.

(** C3, as stated, fails: the line written for Info("job", 42, "done")
    is not the one with body "job 42 done". *)
Lemma Info_spaced_body_refuted :
  received_at (Logger_Info 1%nat main_stack [AString "job"; AInt 42; AString "done"]
                 worker_world).1 0%nat
  <> ["2024/03/09 12:00:05.042 [I][worker] job 42 done" ++ nl].
Proof. discriminate. Qed.

(** C3, amended: for a logger with tag "worker" and minimum level Info
    (no call site), Info("job", 42, "done") hands the sink exactly one
    line: the millisecond timestamp, "[I]", "[worker] " and the body
    "job42done" followed by a line terminator; the variadic form puts a
    space between two consecutive operands only when neither is a string,
    and both neighbours of 42 are strings. *)
Theorem Info_job_42_done (w : World) l lg cs d dst :
  loggers w !! l = Some lg ->
  tag lg = "worker" -> level lg = LevelInfo -> fileAndLine lg = false ->
  sink_ready w lg d dst ->
  received_at (Logger_Info l cs [AString "job"; AInt 42; AString "done"] w).1 d
  = (received dst
     ++ [(time_Format (now w) ++ "[I]" ++ "[worker] " ++ "job42done" ++ nl)%string])%list
  /\ forall (a b : any) (rest : list any),
       fmt_Sprint (a :: b :: rest)
       = format_any a ++ (if is_string a || is_string b then "" else " ")
         ++ fmt_Sprint (b :: rest).
Proof.
  intros Hl Ht Hv Hf Hr. split; [| apply Sprint_spacing].
  unfold Logger_Info.
  rewrite (received_after_output w l lg _ LevelInfo _ d dst Hl) by (rewrite ?Hv; done).
  unfold line_of. rewrite header_text, Ht, Hf, string_app_assoc.
  reflexivity.
Qed.

Lemma Info_job_42_done_witness :
  received_at (Logger_Info 1%nat main_stack [AString "job"; AInt 42; AString "done"]
                 worker_world).1 0%nat
  = ["2024/03/09 12:00:05.042 [I][worker] job42done" ++ nl].
Proof.
  assert (Hr : sink_ready worker_world worker_logger 0%nat accepting).
  { exists 0%nat, (mkMutexWriter false (Some 0%nat)). now repeat split. }
  exact (proj1 (Info_job_42_done worker_world 1%nat worker_logger main_stack 0%nat
                  accepting eq_refl eq_refl eq_refl eq_refl Hr)).
Defined.

(** ** Call site attribution *)

(** C9: with call site attribution on, [formatHeader] adds, after the
    rest of the header, the file, a colon, the decimal line and a space
    of the frame three up from its own frame, or "???:0 " when the stack
    has no such frame; for an emission method called from a call site,
    that frame is the call site. *)
Theorem formatHeader_call_site (lg : Logger) (cs : list Frame) (w : World)
    (buf : slice) (lv : Level) :
  fileAndLine lg = true ->
  data (formatHeader lg cs w buf lv)
  = data (formatHeader (with_fileAndLine false lg) cs w buf lv)
    ++ match runtime_Caller 3 (mkFrame "log.go" 103 :: cs) with
       | Some f => frame_file f ++ ":" ++ strconv_Itoa (frame_line f) ++ " "
       | None => "???:0 "
       end
  /\ (forall own site rest,
        header lg (own :: site :: rest) w lv
        = header (with_fileAndLine false lg) (own :: site :: rest) w lv
          ++ frame_file site ++ ":" ++ strconv_Itoa (frame_line site) ++ " ")
  /\ (forall own,
        header lg [own] w lv = header (with_fileAndLine false lg) [own] w lv ++ "???:0 ").
Proof.
  intros Hf.
  assert (Hgen : forall st b,
             data (formatHeader lg st w b lv)
             = data (formatHeader (with_fileAndLine false lg) st w b lv)
               ++ site_text (mkFrame "log.go" 103 :: st)).
  { intros st b. rewrite !formatHeader_data, Hf. simpl.
    now rewrite string_app_nil_r, !string_app_assoc. }
  repeat split.
  - apply Hgen.
  - intros own site rest. unfold header. now rewrite Hgen.
  - intros own. unfold header. now rewrite Hgen.
Qed.

Lemma formatHeader_call_site_witness :
  received_at (Logger_Info 1%nat main_stack [AString "up"]
                 (assign 1%nat (with_fileAndLine true) worker_world).1).1 0%nat
  = ["2024/03/09 12:00:05.042 [I][worker] main.go:17 up" ++ nl]
  /\ header (with_fileAndLine true worker_logger) [mkFrame "log.go" 190] worker_world LevelInfo
     = "2024/03/09 12:00:05.042 [I][worker] ???:0 ".
Proof.
  split; [reflexivity |].
  exact (proj2 (proj2 (formatHeader_call_site (with_fileAndLine true worker_logger)
                         [] worker_world make_buf LevelInfo eq_refl))
               (mkFrame "log.go" 190)).
Defined.

(** ** Cloning *)

Lemma fresh_Logger_unused (w : World) : loggers w !! fresh (dom (loggers w)) = None.
Proof. apply not_elem_of_dom, is_fresh. Qed.

Lemma fresh_mutexWriter_unused (w : World) : sinks w !! fresh (dom (sinks w)) = None.
Proof. apply not_elem_of_dom, is_fresh. Qed.

Lemma is_clone_insert (w w' : World) (x : Logger) :
  loggers w' = <[fresh (dom (loggers w)) := x]> (loggers w) ->
  is_clone w w' (fresh (dom (loggers w))) x.
Proof.
  intros E. unfold is_clone. rewrite E. split; [apply fresh_Logger_unused |].
  split; [apply lookup_insert_eq |].
  intros a Ha. now apply lookup_insert_ne.
Qed.

Ltac with_field Hl :=
  unfold WithTag, WithLevel, WithFileAndLine, WithOutput, clone, new_Logger,
    new_mutexWriter, assign;
  rewrite Hl; simpl; rewrite lookup_insert_eq; simpl;
  unfold set_loggers, set_sinks; simpl; rewrite alter_insert_eq;
  reflexivity.

Lemma WithTag_world (w : World) l lg tg :
  loggers w !! l = Some lg ->
  WithTag l tg w
  = Some (fresh (dom (loggers w)),
          set_loggers (<[fresh (dom (loggers w)) :=
                           mkLogger (out lg) (level lg) tg (fileAndLine lg)]> (loggers w)) w).
Proof. intros Hl. with_field Hl. Qed.

Lemma WithLevel_world (w : World) l lg lv :
  loggers w !! l = Some lg ->
  WithLevel l lv w
  = Some (fresh (dom (loggers w)),
          set_loggers (<[fresh (dom (loggers w)) :=
                           mkLogger (out lg) lv (tag lg) (fileAndLine lg)]> (loggers w)) w).
Proof. intros Hl. with_field Hl. Qed.

Lemma WithFileAndLine_world (w : World) l lg b :
  loggers w !! l = Some lg ->
  WithFileAndLine l b w
  = Some (fresh (dom (loggers w)),
          set_loggers (<[fresh (dom (loggers w)) :=
                           mkLogger (out lg) (level lg) (tag lg) b]> (loggers w)) w).
Proof. intros Hl. with_field Hl. Qed.

Lemma WithOutput_world (w : World) l lg o :
  loggers w !! l = Some lg ->
  WithOutput l o w
  = Some (fresh (dom (loggers w)),
          set_loggers (<[fresh (dom (loggers w)) :=
                           mkLogger (Some (fresh (dom (sinks w)))) (level lg) (tag lg)
                                    (fileAndLine lg)]> (loggers w))
            (set_sinks (<[fresh (dom (sinks w)) := mkMutexWriter false o]> (sinks w)) w)).
Proof. intros Hl. with_field Hl. Qed.

(** A Logger that exists stays as it is when something is stored at an
    unused address. *)
Lemma kept_insert_fresh (w : World) (x : Logger) a y :
  loggers w !! a = Some y ->
  <[fresh (dom (loggers w)) := x]> (loggers w) !! a = Some y.
Proof.
  intros Ha. rewrite lookup_insert_ne; [exact Ha |].
  intros E. rewrite <- E, fresh_Logger_unused in Ha. discriminate.
Qed.

Lemma With_keeps (w : World) l a y :
  loggers w !! a = Some y ->
  (forall tg, loggers (world_of w (WithTag l tg w)) !! a = Some y)
  /\ (forall lv, loggers (world_of w (WithLevel l lv w)) !! a = Some y)
  /\ (forall b, loggers (world_of w (WithFileAndLine l b w)) !! a = Some y)
  /\ (forall o, loggers (world_of w (WithOutput l o w)) !! a = Some y).
Proof.
  intros Ha. destruct (loggers w !! l) as [lg|] eqn:Hl.
  - repeat split; intros.
    + rewrite (WithTag_world w l lg) by exact Hl. now apply kept_insert_fresh.
    + rewrite (WithLevel_world w l lg) by exact Hl. now apply kept_insert_fresh.
    + rewrite (WithFileAndLine_world w l lg) by exact Hl. now apply kept_insert_fresh.
    + rewrite (WithOutput_world w l lg) by exact Hl. now apply kept_insert_fresh.
  - unfold WithTag, WithLevel, WithFileAndLine, WithOutput, clone.
    rewrite Hl. now repeat split.
Qed.

Lemma Write_loggers (m : option loc) (b : string) (w : World) :
  loggers (mutexWriter_Write m b w).1 = loggers w.
Proof.
  unfold mutexWriter_Write, io_Write.
  repeat (case_match; simpl; try reflexivity).
Qed.

Lemma output_loggers (l : loc) cs lv s (w : World) :
  loggers (output l cs lv s w).1 = loggers w.
Proof.
  unfold output. destruct (loggers w !! l) as [lg|]; [| reflexivity].
  destruct (lv >? level lg); [reflexivity |]. cbn [bufPool_New].
  match goal with
  | |- context [mutexWriter_Write ?m ?b ?w1] =>
      pose proof (Write_loggers m b w1) as Hw;
      destruct (mutexWriter_Write m b w1) as [w2 r]
  end.
  simpl in Hw. destruct r as [n [e|] | p |]; simpl; exact Hw.
Qed.

Lemma and_then_exit_world (f : World -> World * Outcome) (code : Z) (w : World) :
  (and_then f (os_Exit code) w).1 = (f w).1.
Proof. unfold and_then, os_Exit. destruct (f w) as [w1 []]; reflexivity. Qed.

Lemma step_keeps `{GoLib} (op : Op) (w : World) a y :
  is_setter op = false -> loggers w !! a = Some y ->
  loggers (step op w) !! a = Some y.
Proof.
  intros Hop Ha.
  destruct op as [l|l tg|l lv|l o|l b|l m cs msg| |tg|o|s|lv|b|tg|lv|o|b|m cs msg|cs msg];
    try discriminate Hop; simpl;
    try exact Ha;
    try (now apply (With_keeps w _ a y Ha)).
  - destruct m, msg; simpl; unfold Logger_Error, Logger_Errorf, Logger_Warn,
      Logger_Warnf, Logger_Info, Logger_Infof, Logger_Debug, Logger_Debugf;
      now rewrite output_loggers.
  - destruct m, msg; simpl; unfold Error, Errorf, Warn, Warnf, Info, Infof,
      Debug, Debugf; now rewrite output_loggers.
  - destruct msg; unfold Fatal, Fatalf; now rewrite and_then_exit_world, output_loggers.
Qed.

(** C5: each of WithTag, WithLevel, WithOutput and WithFileAndLine
    returns a Logger at an address that was unused, with the receiver's
    fields but the one that is named; the receiver and every other Logger
    stay as they were.  The three that do not name the output keep the
    receiver's sink pointer and add no sink; WithOutput stores a new,
    unlocked mutexWriter around the given destination at an address that
    was unused and leaves the existing ones alone.  No exported operation
    other than the Set functions changes a Logger that exists. *)
Theorem With_clone_frame `{GoLib} (w : World) (l : loc) (lg : Logger) :
  loggers w !! l = Some lg ->
  (forall tg, exists c w',
      WithTag l tg w = Some (c, w')
      /\ is_clone w w' c (mkLogger (out lg) (level lg) tg (fileAndLine lg))
      /\ loggers w' !! l = Some lg /\ sinks w' = sinks w)
  /\ (forall lv, exists c w',
      WithLevel l lv w = Some (c, w')
      /\ is_clone w w' c (mkLogger (out lg) lv (tag lg) (fileAndLine lg))
      /\ loggers w' !! l = Some lg /\ sinks w' = sinks w)
  /\ (forall b, exists c w',
      WithFileAndLine l b w = Some (c, w')
      /\ is_clone w w' c (mkLogger (out lg) (level lg) (tag lg) b)
      /\ loggers w' !! l = Some lg /\ sinks w' = sinks w)
  /\ (forall o, exists c m w',
      WithOutput l o w = Some (c, w')
      /\ is_clone w w' c (mkLogger (Some m) (level lg) (tag lg) (fileAndLine lg))
      /\ loggers w' !! l = Some lg
      /\ sinks w !! m = None
      /\ sinks w' !! m = Some (mkMutexWriter false o)
      /\ forall a, a <> m -> sinks w' !! a = sinks w !! a)
  /\ (forall op a y,
        is_setter op = false -> loggers w !! a = Some y ->
        loggers (step op w) !! a = Some y).
Proof.
  intros Hl. repeat split.
  - intros tg. eexists _, _. split; [exact (WithTag_world w l lg _ Hl) |].
    split; [now apply is_clone_insert |]. split; [| reflexivity].
    now apply kept_insert_fresh.
  - intros lv. eexists _, _. split; [exact (WithLevel_world w l lg _ Hl) |].
    split; [now apply is_clone_insert |]. split; [| reflexivity].
    now apply kept_insert_fresh.
  - intros b. eexists _, _. split; [exact (WithFileAndLine_world w l lg _ Hl) |].
    split; [now apply is_clone_insert |]. split; [| reflexivity].
    now apply kept_insert_fresh.
  - intros o. eexists _, _, _. split; [exact (WithOutput_world w l lg _ Hl) |].
    split; [now apply is_clone_insert |].
    split; [now apply kept_insert_fresh |].
    split; [apply fresh_mutexWriter_unused |].
    split; [apply lookup_insert_eq |].
    intros a Ha. now apply lookup_insert_ne.
  - intros op a y. apply step_keeps.
Qed.

Lemma With_clone_frame_witness :
  (exists c w',
      WithTag 0%nat "worker" fresh_world = Some (c, w')
      /\ is_clone fresh_world w' c (mkLogger (Some 0%nat) 0 "worker" false)
      /\ loggers w' !! 0%nat = Some std_logger /\ sinks w' = sinks fresh_world)
  /\ (exists c m w',
      WithOutput 0%nat (Some 0%nat) fresh_world = Some (c, w')
      /\ is_clone fresh_world w' c (mkLogger (Some m) 0 "" false)
      /\ loggers w' !! 0%nat = Some std_logger
      /\ sinks fresh_world !! m = None
      /\ sinks w' !! m = Some (mkMutexWriter false (Some 0%nat))
      /\ forall a, a <> m -> sinks w' !! a = sinks fresh_world !! a).
Proof.
  pose proof (@With_clone_frame ascii_lib fresh_world 0%nat std_logger eq_refl)
    as (HT & _ & _ & HO & _).
  split; [exact (HT "worker") | exact (HO (Some 0%nat))].
Defined.

(** ** Fatal *)

(** Only the frame three up from [formatHeader] is read: the frame of
    the function that calls [output] does not matter. *)
Lemma output_own_frame (l : loc) (f f' : Frame) cs lv s (w : World) :
  output l (f :: cs) lv s w = output l (f' :: cs) lv s w.
Proof. reflexivity. Qed.

(** C7, as stated, fails: when the write fails, Fatal panics with the
    write error and the process does not exit with status 1. *)
Lemma Fatal_write_fails :
  (Fatal main_stack [AString "x"] broken_world).2
  = Panicked (PanicError "file already closed")
  /\ (Fatal main_stack [AString "x"] broken_world).2 <> Exited 1.
Proof. split; [reflexivity | discriminate]. Qed.

(** C7, amended: Fatal and Fatalf do to the world exactly what the
    package functions Error and Errorf do (the same line at the Error
    level, the same write); when that emission returns, the process
    exits with status 1; when it does not return, Fatal and Fatalf end
    the way it ended: a failed write is a panic with the write error,
    and [os.Exit] is not reached. *)
Theorem Fatal_exit `{GoLib} (cs : list Frame) (format : string) (v : list any)
    (w : World) :
  (Fatal cs v w).1 = (Error cs v w).1
  /\ (Fatalf cs format v w).1 = (Errorf cs format v w).1
  /\ (Fatal cs v w).2
     = match (Error cs v w).2 with Returned => Exited 1 | o => o end
  /\ (Fatalf cs format v w).2
     = match (Errorf cs format v w).2 with Returned => Exited 1 | o => o end
  /\ (forall lg d dst e,
        loggers w !! std w = Some lg -> LevelError <= level lg ->
        sink_ready w lg d dst ->
        (behaviour dst (received dst)
           (line_of lg (mkFrame "std.go" 94 :: cs) w LevelError (fmt_Sprint v))).2
        = Some e ->
        (Fatal cs v w).2 = Panicked (PanicError e)).
Proof.
  assert (HF : forall s f f',
             and_then (fun w0 => output (std w0) (f :: cs) LevelError s w0) (os_Exit 1) w
             = ((output (std w) (f' :: cs) LevelError s w).1,
                match (output (std w) (f' :: cs) LevelError s w).2 with
                | Returned => Exited 1
                | o => o
                end)).
  { intros s f f'. unfold and_then, os_Exit.
    rewrite (output_own_frame (std w) f f').
    now destruct (output (std w) (f' :: cs) LevelError s w) as [w1 []]. }
  unfold Fatal, Fatalf, Error, Errorf.
  repeat split.
  - now rewrite (HF _ _ (mkFrame "std.go" 62)).
  - now rewrite (HF _ _ (mkFrame "std.go" 66)).
  - now rewrite (HF _ _ (mkFrame "std.go" 62)).
  - now rewrite (HF _ _ (mkFrame "std.go" 66)).
  - intros lg d dst e Hl Hle Hr He.
    rewrite (HF _ _ (mkFrame "std.go" 94)); simpl.
    rewrite (output_visible w (std w) lg _ LevelError _ d dst Hl Hle Hr); simpl.
    now rewrite He.
Qed.

Lemma Fatal_exit_witness :
  (Fatal main_stack [AString "x"] broken_world).2
  = Panicked (PanicError "file already closed")
  /\ (Fatal main_stack [AString "x"] fresh_world).2 = Exited 1.
Proof.
  pose proof (@Fatal_exit ascii_lib main_stack "" [AString "x"] broken_world)
    as (_ & _ & _ & _ & HP).
  pose proof (@Fatal_exit ascii_lib main_stack "" [AString "x"] fresh_world)
    as (_ & _ & HE & _).
  split.
  - assert (Hle : LevelError <= level std_logger) by discriminate.
    exact (HP std_logger 0%nat closed_file "file already closed" eq_refl Hle
              (init_ready closed_file noon) eq_refl).
  - exact HE.
Defined.

(** ** The level setters *)

Lemma setLevel_stores (w : World) l lg lv :
  loggers w !! l = Some lg ->
  (setLevel l lv w).2 = Returned
  /\ loggers (setLevel l lv w).1 !! l
     = Some (mkLogger (out lg) lv (tag lg) (fileAndLine lg))
  /\ forall a, a <> l -> loggers (setLevel l lv w).1 !! a = loggers w !! a.
Proof.
  intros Hl. unfold setLevel, assign. rewrite Hl; simpl. repeat split.
  - now rewrite lookup_alter_eq, Hl.
  - intros a Ha. now rewrite lookup_alter_ne.
Qed.

(** C8: [setLevelString], and with it SetLevelString on the default
    logger, lower-cases its argument; "error" or "e" sets the level to
    Error, "warning" or "w" to Warning, "info" or "i" to Info, "debug"
    or "d" to Debug; any other text leaves the world as it was; in every
    case the call returns and reports nothing. *)
Theorem setLevelString_tokens `{GoLib} (w : World) (l : loc) (lg : Logger) (s : string) :
  loggers w !! l = Some lg ->
  let t := strings_ToLower s in
  let set lv :=
    setLevelString l s w = setLevel l lv w
    /\ (setLevelString l s w).2 = Returned
    /\ loggers (setLevelString l s w).1 !! l
       = Some (mkLogger (out lg) lv (tag lg) (fileAndLine lg)) in
  (t = "error" \/ t = "e" -> set LevelError)
  /\ (t = "warning" \/ t = "w" -> set LevelWarning)
  /\ (t = "info" \/ t = "i" -> set LevelInfo)
  /\ (t = "debug" \/ t = "d" -> set LevelDebug)
  /\ (t <> "error" -> t <> "e" -> t <> "warning" -> t <> "w" ->
      t <> "info" -> t <> "i" -> t <> "debug" -> t <> "d" ->
      setLevelString l s w = (w, Returned))
  /\ SetLevelString s w = setLevelString (std w) s w.
Proof.
  intros Hl t set.
  assert (Hset : forall lv, setLevelString l s w = setLevel l lv w -> set lv).
  { intros lv E. split; [exact E |]. rewrite E.
    destruct (setLevel_stores w l lg lv Hl) as (? & ? & _). now split. }
  split; [| split; [| split; [| split; [| split; [| reflexivity]]]]].
  - intros [E|E]; apply Hset; unfold setLevelString; fold t; now rewrite E.
  - intros [E|E]; apply Hset; unfold setLevelString; fold t; now rewrite E.
  - intros [E|E]; apply Hset; unfold setLevelString; fold t; now rewrite E.
  - intros [E|E]; apply Hset; unfold setLevelString; fold t; now rewrite E.
  - intros. unfold setLevelString; fold t.
    now rewrite !bool_decide_eq_false_2 by assumption.
Qed.

Lemma setLevelString_tokens_witness :
  (@setLevelString ascii_lib 0%nat "DEBUG" fresh_world).2 = Returned
  /\ loggers (@setLevelString ascii_lib 0%nat "DEBUG" fresh_world).1 !! 0%nat
     = Some (mkLogger (Some 0%nat) LevelDebug "" false)
  /\ @setLevelString ascii_lib 0%nat "verbose" fresh_world = (fresh_world, Returned).
Proof.
  pose proof (@setLevelString_tokens ascii_lib fresh_world 0%nat std_logger "DEBUG"
                eq_refl) as (_ & _ & _ & HD & _).
  pose proof (@setLevelString_tokens ascii_lib fresh_world 0%nat std_logger "verbose"
                eq_refl) as (_ & _ & _ & _ & HN & _).
  split; [| split].
  - exact (proj1 (proj2 (HD (or_introl eq_refl)))).
  - exact (proj2 (proj2 (HD (or_introl eq_refl)))).
  - apply HN; discriminate.
Defined.

(** ** Levels outside the four named ones *)

(** C10: the level is any integer.  WithLevel and SetLevel store
    whatever integer they are given; a logger whose minimum level is
    numerically below Error suppresses every emission method, Error and
    Errorf included (and Fatal then exits without a write); a logger
    whose minimum is at least Error, as the four named levels are, does
    write what Error emits. *)
Theorem level_is_any_integer `{GoLib} (w : World) (l : loc) (lg : Logger) :
  loggers w !! l = Some lg ->
  (forall z : Z, exists c w',
      WithLevel l z w = Some (c, w') /\ Logger_Level c w' = Some z)
  /\ (forall z : Z, std w = l -> Logger_Level l (SetLevel z w).1 = Some z)
  /\ (level lg < LevelError ->
      (forall m cs msg, emit l m cs msg w = (w, Returned))
      /\ (std w = l ->
          (forall m cs msg, std_emit m cs msg w = (w, Returned))
          /\ (forall cs v, Fatal cs v w = (w, Exited 1))
          /\ (forall cs f v, Fatalf cs f v w = (w, Exited 1))))
  /\ (LevelError <= level lg -> forall cs v d dst,
      sink_ready w lg d dst ->
      received_at (Logger_Error l cs v w).1 d
      = (received dst
         ++ [line_of lg (mkFrame "log.go" 174 :: cs) w LevelError (fmt_Sprint v)])%list).
Proof.
  intros Hl.
  assert (Hhide : level lg < LevelError -> forall lv cs s,
             LevelError <= lv -> output l cs lv s w = (w, Returned)).
  { intros Hlt lv cs s Hlv. apply output_hidden with lg; [exact Hl | lia]. }
  split; [| split; [| split]].
  - intros z. eexists _, _. split; [exact (WithLevel_world w l lg z Hl) |].
    unfold Logger_Level; simpl. now rewrite lookup_insert_eq.
  - intros z <-. unfold SetLevel, Logger_Level.
    destruct (setLevel_stores w (std w) lg z Hl) as (_ & E & _). now rewrite E.
  - intros Hlt. split; [| intros <-; split; [| split]].
    + intros m cs msg.
      destruct m, msg; simpl; apply Hhide; try exact Hlt; discriminate.
    + intros m cs msg.
      destruct m, msg; simpl; apply Hhide; try exact Hlt; discriminate.
    + intros cs v. unfold Fatal, and_then.
      rewrite Hhide; [reflexivity | exact Hlt | discriminate].
    + intros cs f v. unfold Fatalf, and_then.
      rewrite Hhide; [reflexivity | exact Hlt | discriminate].
  - intros Hle cs v d dst Hr. unfold Logger_Error.
    now apply received_after_output.
Qed.

Lemma level_is_any_integer_witness :
  let w := (SetLevel (-3) fresh_world).1 in
  Logger_Level 0%nat w = Some (-3)
  /\ @emit ascii_lib 0%nat MError main_stack (Templ "disk %d" [AInt 7]) w = (w, Returned)
  /\ Error main_stack [AString "disk"] w = (w, Returned)
  /\ Fatal main_stack [AString "disk"] w = (w, Exited 1).
Proof.
  intros w.
  assert (Hlt : level (with_level (-3) std_logger) < LevelError) by reflexivity.
  pose proof (@level_is_any_integer ascii_lib fresh_world 0%nat std_logger eq_refl)
    as (_ & HS & _).
  pose proof (@level_is_any_integer ascii_lib w 0%nat (with_level (-3) std_logger)
                eq_refl) as (_ & _ & HH & _).
  destruct (HH Hlt) as (He & Hstd). destruct (Hstd eq_refl) as (Hs & Hf & _).
  split; [exact (HS (-3) eq_refl) |].
  split; [exact (He MError main_stack (Templ "disk %d" [AInt 7])) |].
  split; [exact (Hs MError main_stack (Plain [AString "disk"])) | exact (Hf main_stack [AString "disk"])].
Defined.

(** * Further properties of the code *)

(** ** The synchronized sink *)

Lemma set_mu_restore (a : loc) (mw : mutexWriter) (w : World) :
  sinks w !! a = Some mw -> mu mw = false ->
  set_mu false a (set_mu true a w) = w.
Proof.
  intros Hs Hm. destruct w as [lo si de bp ma no st]; simpl in *.
  unfold set_mu, set_sinks; simpl. f_equal.
  apply map_eq; intros i. destruct (decide (a = i)) as [<-|Hne].
  - rewrite !lookup_alter_eq, Hs. destruct mw; simpl in *; now subst.
  - now rewrite !lookup_alter_ne.
Qed.

(** X1: a Write on a sink that is not held and wraps a destination
    forwards all the bytes to that destination in one call and answers
    exactly what the destination answered; afterwards the mutex is
    released again, and no Logger, no sink and no other destination has
    changed. *)
Theorem mutexWriter_Write_forwards (w : World) a mw d dst b :
  sinks w !! a = Some mw -> mu mw = false ->
  mw_Writer mw = Some d -> dests w !! d = Some dst ->
  (mutexWriter_Write (Some a) b w).2
  = Wrote (behaviour dst (received dst) b).1 (behaviour dst (received dst) b).2
  /\ received_at (mutexWriter_Write (Some a) b w).1 d = (received dst ++ [b])%list
  /\ sinks (mutexWriter_Write (Some a) b w).1 = sinks w
  /\ loggers (mutexWriter_Write (Some a) b w).1 = loggers w
  /\ forall d', d' <> d ->
       dests (mutexWriter_Write (Some a) b w).1 !! d' = dests w !! d'.
Proof.
  intros Hs Hm Hw Hd.
  assert (Hr : sink_ready w (mkLogger (Some a) 0 "" false) d dst)
    by (exists a, mw; now repeat split).
  pose proof (Write_ready w _ d dst b Hr) as E. cbn [out] in E. rewrite E.
  split; [reflexivity |]. split.
  { unfold received_at; simpl. now rewrite lookup_insert_eq. }
  split; [reflexivity |]. split; [reflexivity |].
  intros d' Hne. simpl. now rewrite lookup_insert_ne.
Qed.

Lemma mutexWriter_Write_forwards_witness :
  (mutexWriter_Write (Some 0%nat) "abc" broken_world).2
  = Wrote 0 (Some "file already closed")
  /\ received_at (mutexWriter_Write (Some 0%nat) "abc" broken_world).1 0%nat = ["abc"]
  /\ sinks (mutexWriter_Write (Some 0%nat) "abc" broken_world).1 = sinks broken_world.
Proof.
  pose proof (mutexWriter_Write_forwards broken_world 0%nat
                (mkMutexWriter false (Some 0%nat)) 0%nat closed_file "abc"
                eq_refl eq_refl eq_refl eq_refl) as (H1 & H2 & H3 & _).
  split; [exact H1 |]. split; [exact H2 | exact H3].
Defined.

Lemma mutexWriter_Write_missing_writer (w : World) a mw b :
  sinks w !! a = Some mw -> mu mw = false -> mw_Writer mw = None ->
  mutexWriter_Write (Some a) b w = (w, WritePanicked PanicNilDeref).
Proof.
  intros Hs Hm Hw. unfold mutexWriter_Write. rewrite Hs, Hm, Hw.
  now rewrite (set_mu_restore a mw).
Qed.

(** X2: a Write on a sink that is not held and whose embedded writer is
    nil panics with a nil dereference; the deferred unlock has released
    the mutex, and nothing in the world has changed. *)
Theorem mutexWriter_Write_nil (w : World) a mw b :
  sinks w !! a = Some mw -> mu mw = false -> mw_Writer mw = None ->
  mutexWriter_Write (Some a) b w = (w, WritePanicked PanicNilDeref).
Proof.
  intros Hs Hm Hw. unfold mutexWriter_Write. rewrite Hs, Hm, Hw.
  f_equal. now apply set_mu_restore with mw.
Qed.

Lemma mutexWriter_Write_nil_witness :
  let w := world_of fresh_world (WithOutput 0%nat None fresh_world) in
  mutexWriter_Write (Some 1%nat) "abc" w = (w, WritePanicked PanicNilDeref).
Proof.
  intros w.
  exact (mutexWriter_Write_nil w 1%nat (mkMutexWriter false None) "abc"
           eq_refl eq_refl eq_refl).
Defined.

(** ** Level tokens *)

(** X3: [String] gives "[E]", "[W]", "[I]" and "[D]" for the four named
    levels and the empty text for every other integer; so the token is
    empty exactly for the levels that have no name. *)
Theorem Level_String_named (lv : Level) :
  Level_String LevelError = "[E]" /\ Level_String LevelWarning = "[W]"
  /\ Level_String LevelInfo = "[I]" /\ Level_String LevelDebug = "[D]"
  /\ (Level_String lv = "" <-> (lv < LevelError \/ LevelDebug < lv)).
Proof.
  repeat (split; [reflexivity |]).
  unfold Level_String, levelString, LevelError, LevelWarning, LevelInfo, LevelDebug.
  destruct (decide (lv = -2)) as [->|]; [split; [discriminate | lia] |].
  destruct (decide (lv = -1)) as [->|]; [split; [discriminate | lia] |].
  destruct (decide (lv = 0)) as [->|]; [split; [discriminate | lia] |].
  destruct (decide (lv = 1)) as [->|]; [split; [discriminate | lia] |].
  rewrite !lookup_insert_ne, lookup_empty by congruence.
  split; [lia | reflexivity].
Qed.

(** ** The emission path *)

Lemma output_unfold (l : loc) cs lv s (w : World) :
  output l cs lv s w
  = match loggers w !! l with
    | None => (w, Panicked PanicNilDeref)
    | Some lg =>
        if lv >? level lg then (w, Returned)
        else
          let '(w2, r) := mutexWriter_Write (out lg) (data (built lg cs w lv s))
                            (bufPool_New w).2 in
          match r with
          | Wrote _ None => (bufPool_Put (built lg cs w lv s) w2, Returned)
          | Wrote _ (Some err) =>
              (bufPool_Put (built lg cs w lv s) w2, Panicked (PanicError err))
          | WritePanicked p => (bufPool_Put (built lg cs w lv s) w2, Panicked p)
          | WriteBlocked => (w2, Blocked)
          end
    end.
Proof.
  unfold output. destruct (loggers w !! l) as [lg|]; [| reflexivity].
  destruct (lv >? level lg); [reflexivity |].
  cbn [bufPool_New]. unfold built.
  now rewrite (formatHeader_now lg _ _ w) by reflexivity.
Qed.

Lemma line_of_fields (lg lg' : Logger) cs (w w' : World) lv s :
  tag lg = tag lg' -> fileAndLine lg = fileAndLine lg' -> now w = now w' ->
  line_of lg cs w lv s = line_of lg' cs w' lv s.
Proof.
  intros Ht Hf Hn. unfold line_of. now rewrite !header_text, Ht, Hf, Hn.
Qed.


(** After a visible emission the logger is as it was and its sink is
    ready again, the destination having one more entry. *)
Lemma output_visible_again (w : World) l lg cs lv s d dst :
  loggers w !! l = Some lg -> lv <= level lg -> sink_ready w lg d dst ->
  loggers (output l cs lv s w).1 = loggers w
  /\ sinks (output l cs lv s w).1 = sinks w
  /\ now (output l cs lv s w).1 = now w
  /\ std (output l cs lv s w).1 = std w
  /\ dests (output l cs lv s w).1
     = <[d := mkWriter (behaviour dst) (received dst ++ [line_of lg cs w lv s])]> (dests w).
Proof.
  intros Hl Hle Hr. now rewrite (output_visible w l lg cs lv s d dst).
Qed.

(** X4: a visible emission changes one thing besides the pool: the
    destination of the logger's own sink.  Every Logger, every sink
    (mutex released), every other destination, the default logger and
    the clock are as before. *)
Theorem output_touches_own_destination (w : World) l lg cs lv s d dst :
  loggers w !! l = Some lg -> lv <= level lg -> sink_ready w lg d dst ->
  loggers (output l cs lv s w).1 = loggers w
  /\ sinks (output l cs lv s w).1 = sinks w
  /\ std (output l cs lv s w).1 = std w
  /\ (forall d', d' <> d -> dests (output l cs lv s w).1 !! d' = dests w !! d')
  /\ (forall d', d' <> d ->
        received_at (output l cs lv s w).1 d' = received_at w d').
Proof.
  intros Hl Hle Hr.
  destruct (output_visible_again w l lg cs lv s d dst Hl Hle Hr)
    as (E1 & E2 & _ & E4 & E5).
  split; [exact E1 |]. split; [exact E2 |]. split; [exact E4 |].
  assert (Hd : forall d', d' <> d ->
                 dests (output l cs lv s w).1 !! d' = dests w !! d').
  { intros d' Hne. rewrite E5. now apply lookup_insert_ne. }
  split; [exact Hd |].
  intros d' Hne. unfold received_at. now rewrite Hd.
Qed.

Lemma output_touches_own_destination_witness :
  let w := world_of fresh_world (WithOutput 0%nat (Some 0%nat) fresh_world) in
  loggers (output 1%nat main_stack LevelInfo "x" w).1 = loggers w
  /\ sinks (output 1%nat main_stack LevelInfo "x" w).1 = sinks w
  /\ std (output 1%nat main_stack LevelInfo "x" w).1 = std w.
Proof.
  intros w.
  assert (Hr : sink_ready w (mkLogger (Some 1%nat) 0 "" false) 0%nat accepting).
  { exists 1%nat, (mkMutexWriter false (Some 0%nat)). now repeat split. }
  assert (Hle : LevelInfo <= level (mkLogger (Some 1%nat) 0 "" false)) by discriminate.
  pose proof (output_touches_own_destination w 1%nat _ main_stack LevelInfo "x"
                0%nat accepting eq_refl Hle Hr) as (H1 & H2 & H3 & _).
  split; [exact H1 |]. split; [exact H2 | exact H3].
Defined.

(** ** The emission methods *)

Lemma emit_as_output `{GoLib} (l : loc) (m : Method) cs (msg : Message) (w : World) :
  emit l m cs msg w
  = output l (mkFrame "log.go" 0 :: cs) (method_level m) (message_body msg) w.
Proof. destruct m, msg; reflexivity. Qed.

Lemma site_text_caller (lg : Logger) (f1 f2 f3 : Frame) (cs : list Frame) :
  (if fileAndLine lg then site_text (f1 :: f2 :: f3 :: cs) else "")
  = caller_text lg cs.
Proof. unfold caller_text, site_text. now destruct (fileAndLine lg), cs. Qed.

Lemma line_of_text (lg : Logger) (own : Frame) cs (w : World) lv s :
  line_of lg (own :: cs) w lv s
  = time_Format (now w) ++ Level_String lv ++ tag_text lg ++ caller_text lg cs
    ++ s ++ (if lacks_newline s then nl else "").
Proof.
  unfold line_of. rewrite header_text, site_text_caller.
  fold (tag_text lg). now rewrite !string_app_assoc.
Qed.

(** X5: each package function (Error, Errorf, ..., Debugf) does exactly
    what the method of the same name does on the logger [Default()]
    returns: the same gate, the same line, the same call site, because
    both are one call away from [output]. *)
Theorem std_emit_is_Default_emit `{GoLib} (m : Method) cs (msg : Message) (w : World) :
  std_emit m cs msg w = emit (Default w) m cs msg w.
Proof. destruct m, msg; apply output_own_frame. Qed.

(** X6: an emission method is a no-op when its own level is above the
    logger's minimum; otherwise the destination receives one line made
    of the timestamp, the token of the method, "[tag] " when the tag is
    not empty, "file:line " of the caller when call site attribution is
    on, the body, and a line terminator when the body lacks one. *)
Theorem emit_line `{GoLib} (w : World) l lg (m : Method) cs (msg : Message) d dst :
  loggers w !! l = Some lg -> sink_ready w lg d dst ->
  (method_level m > level lg -> emit l m cs msg w = (w, Returned))
  /\ (method_level m <= level lg ->
      received_at (emit l m cs msg w).1 d
      = (received dst
         ++ [(time_Format (now w) ++ method_token m ++ tag_text lg
              ++ caller_text lg cs ++ message_body msg
              ++ (if lacks_newline (message_body msg) then nl else ""))%string])%list).
Proof.
  intros Hl Hr. rewrite emit_as_output. split.
  - intros Hgt. now apply output_hidden with lg.
  - intros Hle. rewrite (received_after_output w l lg _ _ _ d dst Hl Hle Hr).
    rewrite line_of_text. now destruct m.
Qed.

Lemma emit_line_witness :
  @emit ascii_lib 1%nat MDebug main_stack (Templ "n=%d" [AInt 7]) worker_world
  = (worker_world, Returned)
  /\ received_at (@emit ascii_lib 1%nat MWarn main_stack (Templ "n=%d" [AInt 7])
                    worker_world).1 0%nat
     = ["2024/03/09 12:00:05.042 [W][worker] n=7" ++ nl].
Proof.
  assert (Hr : sink_ready worker_world worker_logger 0%nat accepting).
  { exists 0%nat, (mkMutexWriter false (Some 0%nat)). now repeat split. }
  pose proof (@emit_line ascii_lib worker_world 1%nat worker_logger MDebug main_stack
                (Templ "n=%d" [AInt 7]) 0%nat accepting eq_refl Hr) as (HD & _).
  pose proof (@emit_line ascii_lib worker_world 1%nat worker_logger MWarn main_stack
                (Templ "n=%d" [AInt 7]) 0%nat accepting eq_refl Hr) as (_ & HW).
  split; [apply HD; reflexivity | apply HW; discriminate].
Defined.

(** ** The line terminator *)




(** ** Emissions in a row *)



(** ** A logger without a destination *)

Lemma Write_missing (w : World) (lg : Logger) b :
  sink_missing w lg ->
  mutexWriter_Write (out lg) b w = (w, WritePanicked PanicNilDeref).
Proof.
  intros [Ho | (a & mw & Ho & Hs & Hm & Hw)]; rewrite Ho.
  - reflexivity.
  - now apply mutexWriter_Write_missing_writer with mw.
Qed.

(** X15: on a logger that has no sink, or whose sink wraps a nil
    writer, a suppressed emission still returns, and a visible one
    panics with a nil dereference after the line was built: the buffer
    is put into the pool all the same, the mutex is not left held, and
    no Logger, sink or destination has changed. *)
Theorem output_without_destination (w : World) l lg cs lv s :
  loggers w !! l = Some lg -> sink_missing w lg ->
  (lv > level lg -> output l cs lv s w = (w, Returned))
  /\ (lv <= level lg ->
      (output l cs lv s w).2 = Panicked PanicNilDeref
      /\ bufPool (output l cs lv s w).1 = built lg cs w lv s :: bufPool w
      /\ loggers (output l cs lv s w).1 = loggers w
      /\ sinks (output l cs lv s w).1 = sinks w
      /\ dests (output l cs lv s w).1 = dests w).
Proof.
  intros Hl Hm. split.
  - intros Hgt. now apply output_hidden with lg.
  - intros Hle. rewrite output_unfold, Hl.
    replace (lv >? level lg) with false
      by (symmetry; rewrite Z.gtb_ltb; apply Z.ltb_ge; lia).
    assert (Hm1 : sink_missing (bufPool_New w).2 lg) by exact Hm.
    now rewrite (Write_missing _ lg _ Hm1).
Qed.

Lemma output_without_destination_witness :
  let w := world_of fresh_world (WithOutput 0%nat None fresh_world) in
  output 1%nat main_stack LevelDebug "x" w = (w, Returned)
  /\ (output 1%nat main_stack LevelInfo "x" w).2 = Panicked PanicNilDeref
  /\ dests (output 1%nat main_stack LevelInfo "x" w).1 = dests w.
Proof.
  intros w.
  assert (Hm : sink_missing w (mkLogger (Some 1%nat) 0 "" false)).
  { right. exists 1%nat, (mkMutexWriter false None). now repeat split. }
  pose proof (output_without_destination w 1%nat _ main_stack LevelDebug "x" eq_refl Hm)
    as (HD & _).
  pose proof (output_without_destination w 1%nat _ main_stack LevelInfo "x" eq_refl Hm)
    as (_ & HI).
  assert (Hle : LevelInfo <= level (mkLogger (Some 1%nat) 0 "" false)) by discriminate.
  destruct (HI Hle) as (H1 & _ & _ & _ & H5).
  split; [apply HD; reflexivity |]. split; [exact H1 | exact H5].
Defined.

(** ** Clones and their sinks *)

Lemma kept_sink_insert_fresh (w : World) (x : mutexWriter) a y :
  sinks w !! a = Some y ->
  <[fresh (dom (sinks w)) := x]> (sinks w) !! a = Some y.
Proof.
  intros Ha. rewrite lookup_insert_ne; [exact Ha |].
  intros E. rewrite <- E, fresh_mutexWriter_unused in Ha. discriminate.
Qed.




(** X16: WithLevel gives the clone its own gate and leaves the
    receiver's alone: at a level above the receiver's minimum but not
    above the clone's, the receiver still suppresses the emission while
    the clone writes it, through the shared sink. *)
Theorem WithLevel_own_gate (w : World) l lg lvc cs lv s d dst :
  loggers w !! l = Some lg -> sink_ready w lg d dst ->
  level lg < lv -> lv <= lvc ->
  exists c w1,
    WithLevel l lvc w = Some (c, w1)
    /\ output l cs lv s w1 = (w1, Returned)
    /\ received_at (output c cs lv s w1).1 d
       = (received dst ++ [line_of lg cs w lv s])%list.
Proof.
  intros Hl Hr Hlt Hle. eexists _, _.
  split; [exact (WithLevel_world w l lg lvc Hl) |].
  set (lgc := mkLogger (out lg) lvc (tag lg) (fileAndLine lg)).
  set (w1 := set_loggers _ w).
  assert (Hl1 : loggers w1 !! l = Some lg) by (simpl; now apply kept_insert_fresh).
  assert (Hc1 : loggers w1 !! fresh (dom (loggers w)) = Some lgc)
    by (simpl; apply lookup_insert_eq).
  split.
  - apply output_hidden with lg; [exact Hl1 | lia].
  - assert (Hrc : sink_ready w1 lgc d dst).
    { destruct Hr as (a & mw & Hd). now exists a, mw. }
    rewrite (received_after_output w1 _ lgc cs lv s d dst Hc1 Hle Hrc).
    now rewrite (line_of_fields lgc lg cs w1 w).
Qed.

Lemma WithLevel_own_gate_witness :
  exists c w1,
    WithLevel 0%nat LevelDebug fresh_world = Some (c, w1)
    /\ output 0%nat main_stack LevelDebug "x" w1 = (w1, Returned)
    /\ received_at (output c main_stack LevelDebug "x" w1).1 0%nat
       = ["2024/03/09 12:00:05.042 [D]x" ++ nl].
Proof.
  assert (Hlt : level std_logger < LevelDebug) by reflexivity.
  assert (Hle : LevelDebug <= LevelDebug) by discriminate.
  exact (WithLevel_own_gate fresh_world 0%nat std_logger LevelDebug main_stack
           LevelDebug "x" 0%nat accepting eq_refl (init_ready accepting noon) Hlt Hle).
Defined.

(** X9: a clone made by WithOutput writes to the destination it was
    given and to no other: what every other destination has received,
    the receiver's included, stays as it was. *)
Theorem WithOutput_own_destination (w : World) l lg d2 dst2 cs lv s :
  loggers w !! l = Some lg -> dests w !! d2 = Some dst2 -> lv <= level lg ->
  exists c w1,
    WithOutput l (Some d2) w = Some (c, w1)
    /\ received_at (output c cs lv s w1).1 d2
       = (received dst2 ++ [line_of lg cs w lv s])%list
    /\ forall d', d' <> d2 -> received_at (output c cs lv s w1).1 d' = received_at w d'.
Proof.
  intros Hl Hd Hle. eexists _, _.
  split; [exact (WithOutput_world w l lg (Some d2) Hl) |].
  set (m := fresh (dom (sinks w))).
  set (lgc := mkLogger (Some m) (level lg) (tag lg) (fileAndLine lg)).
  set (w1 := set_loggers _ _).
  assert (Hc1 : loggers w1 !! fresh (dom (loggers w)) = Some lgc)
    by (simpl; apply lookup_insert_eq).
  assert (Hrc : sink_ready w1 lgc d2 dst2).
  { exists m, (mkMutexWriter false (Some d2)). repeat split; try assumption.
    simpl. apply lookup_insert_eq. }
  destruct (output_visible_again w1 _ lgc cs lv s d2 dst2 Hc1 Hle Hrc)
    as (_ & _ & _ & _ & E5).
  split.
  - rewrite (received_after_output w1 _ lgc cs lv s d2 dst2 Hc1 Hle Hrc).
    now rewrite (line_of_fields lgc lg cs w1 w).
  - intros d' Hne. unfold received_at. rewrite E5.
    now rewrite lookup_insert_ne by congruence.
Qed.

Lemma WithOutput_own_destination_witness :
  let w := set_dests (<[1%nat := closed_file]> (dests fresh_world)) fresh_world in
  exists c w1,
    WithOutput 0%nat (Some 1%nat) w = Some (c, w1)
    /\ received_at (output c main_stack LevelInfo "x" w1).1 1%nat
       = ["2024/03/09 12:00:05.042 [I]x" ++ nl]
    /\ forall d', d' <> 1%nat ->
         received_at (output c main_stack LevelInfo "x" w1).1 d' = received_at w d'.
Proof.
  intros w.
  assert (Hle : LevelInfo <= level std_logger) by discriminate.
  exact (WithOutput_own_destination w 0%nat std_logger 1%nat closed_file main_stack
           LevelInfo "x" eq_refl eq_refl Hle).
Defined.

(** ** The package-level setters *)

Lemma assign_stores (w : World) l lg (f : Logger -> Logger) :
  loggers w !! l = Some lg ->
  (assign l f w).2 = Returned
  /\ loggers (assign l f w).1 !! l = Some (f lg)
  /\ (forall a, a <> l -> loggers (assign l f w).1 !! a = loggers w !! a)
  /\ sinks (assign l f w).1 = sinks w
  /\ dests (assign l f w).1 = dests w
  /\ std (assign l f w).1 = std w
  /\ now (assign l f w).1 = now w.
Proof.
  intros Hl. unfold assign. rewrite Hl; simpl.
  split; [reflexivity |]. split; [now rewrite lookup_alter_eq, Hl |].
  split; [| now repeat split].
  intros a Ha. now rewrite lookup_alter_ne.
Qed.

(** X11: SetTag, SetLevel and SetFileAndLine return, replace the one
    field they name in the Logger [std] points to, in place, and change
    no other Logger, no sink and no destination. *)
Theorem setters_replace_one_field (w : World) (lg : Logger) :
  loggers w !! std w = Some lg ->
  let changes (r : World * Outcome) (x : Logger) :=
    r.2 = Returned
    /\ loggers r.1 !! std w = Some x
    /\ (forall a, a <> std w -> loggers r.1 !! a = loggers w !! a)
    /\ sinks r.1 = sinks w /\ dests r.1 = dests w /\ std r.1 = std w in
  (forall tg, changes (SetTag tg w) (mkLogger (out lg) (level lg) tg (fileAndLine lg)))
  /\ (forall lv, changes (SetLevel lv w) (mkLogger (out lg) lv (tag lg) (fileAndLine lg)))
  /\ (forall b, changes (SetFileAndLine b w) (mkLogger (out lg) (level lg) (tag lg) b)).
Proof.
  intros Hl changes.
  assert (H : forall f, changes (assign (std w) f w) (f lg)).
  { intros f. destruct (assign_stores w (std w) lg f Hl) as (?&?&?&?&?&?&?).
    unfold changes. now repeat split. }
  split; [| split]; intros x; apply H.
Qed.

Lemma setters_replace_one_field_witness :
  (SetTag "api" worker_world).2 = Returned
  /\ loggers (SetTag "api" worker_world).1 !! 0%nat
     = Some (mkLogger (Some 0%nat) 0 "api" false)
  /\ (forall a, a <> 0%nat ->
        loggers (SetTag "api" worker_world).1 !! a = loggers worker_world !! a)
  /\ sinks (SetTag "api" worker_world).1 = sinks worker_world
  /\ dests (SetTag "api" worker_world).1 = dests worker_world
  /\ std (SetTag "api" worker_world).1 = std worker_world.
Proof.
  exact (proj1 (setters_replace_one_field worker_world std_logger eq_refl) "api").
Defined.

Lemma alter_twice (l : loc) (f g : Logger -> Logger) (m : gmap loc Logger) :
  alter f l (alter g l m) = alter (fun x => f (g x)) l m.
Proof.
  apply map_eq; intros i. destruct (decide (l = i)) as [<-|Hne].
  - rewrite !lookup_alter_eq. now destruct (m !! l).
  - now rewrite !lookup_alter_ne.
Qed.

Lemma assign_twice (l : loc) (f g : Logger -> Logger) (w : World) :
  assign l f (assign l g w).1 = assign l (fun x => f (g x)) w.
Proof.
  unfold assign. destruct (loggers w !! l) as [lg|] eqn:Hl; simpl.
  - rewrite lookup_alter_eq, Hl; simpl. unfold set_loggers; simpl.
    now rewrite alter_twice.
  - now rewrite Hl.
Qed.

(** X12: the setters compose as assignments to separate fields: setting
    the same field twice leaves the second value, and SetTag, SetLevel
    and SetFileAndLine give the same world in either order. *)
Theorem setters_compose (w : World) (tg tg' : string) (lv lv' : Level) (b : bool) :
  SetTag tg' (SetTag tg w).1 = SetTag tg' w
  /\ SetLevel lv' (SetLevel lv w).1 = SetLevel lv' w
  /\ SetLevel lv (SetTag tg w).1 = SetTag tg (SetLevel lv w).1
  /\ SetFileAndLine b (SetTag tg w).1 = SetTag tg (SetFileAndLine b w).1
  /\ SetFileAndLine b (SetLevel lv w).1 = SetLevel lv (SetFileAndLine b w).1.
Proof.
  assert (Hstd : forall f, std (assign (std w) f w).1 = std w).
  { intros f. unfold assign. now destruct (loggers w !! std w). }
  unfold SetTag, SetLevel, SetFileAndLine, setLevel.
  rewrite !Hstd, !assign_twice. now repeat split.
Qed.

Lemma SetOutput_world (w : World) (lg : Logger) (o : option loc) :
  loggers w !! std w = Some lg ->
  SetOutput o w
  = (set_loggers (alter (with_out (Some (fresh (dom (sinks w))))) (std w) (loggers w))
       (set_sinks (<[fresh (dom (sinks w)) := mkMutexWriter false o]> (sinks w)) w),
     Returned).
Proof.
  intros Hl. unfold SetOutput, new_mutexWriter, assign. simpl. now rewrite Hl.
Qed.

(** X10: SetOutput gives the default logger a new, unheld sink around
    the given destination and leaves the old sink in place: the default
    logger writes to the new destination from then on, while a logger
    cloned from it earlier keeps writing to the old one. *)
Theorem SetOutput_leaves_clones (w : World) lg0 c lgc d dst d2 dst2 cs lv s :
  loggers w !! std w = Some lg0 ->
  loggers w !! c = Some lgc -> c <> std w ->
  sink_ready w lgc d dst -> dests w !! d2 = Some dst2 ->
  lv <= level lg0 -> lv <= level lgc ->
  (SetOutput (Some d2) w).2 = Returned
  /\ received_at (output (std w) cs lv s (SetOutput (Some d2) w).1).1 d2
     = (received dst2 ++ [line_of lg0 cs w lv s])%list
  /\ received_at (output c cs lv s (SetOutput (Some d2) w).1).1 d
     = (received dst ++ [line_of lgc cs w lv s])%list.
Proof.
  intros Hs Hc Hne Hr Hd2 Hle0 Hlec.
  rewrite (SetOutput_world w lg0 (Some d2) Hs). cbn [fst snd].
  set (m := fresh (dom (sinks w))).
  set (w1 := set_loggers _ _).
  split; [reflexivity |]. split.
  - assert (Hs1 : loggers w1 !! std w = Some (with_out (Some m) lg0))
      by (simpl; now rewrite lookup_alter_eq, Hs).
    assert (Hr1 : sink_ready w1 (with_out (Some m) lg0) d2 dst2).
    { exists m, (mkMutexWriter false (Some d2)). repeat split; try assumption.
      simpl. apply lookup_insert_eq. }
    rewrite (received_after_output w1 _ _ cs lv s d2 dst2 Hs1 Hle0 Hr1).
    now rewrite (line_of_fields (with_out (Some m) lg0) lg0 cs w1 w).
  - assert (Hc1 : loggers w1 !! c = Some lgc)
      by (simpl; now rewrite lookup_alter_ne).
    assert (Hr1 : sink_ready w1 lgc d dst).
    { destruct Hr as (a & mw & Ho & Ha & Hm & Hw & Hd).
      exists a, mw. repeat split; try assumption.
      simpl. now apply kept_sink_insert_fresh. }
    rewrite (received_after_output w1 c lgc cs lv s d dst Hc1 Hlec Hr1).
    now rewrite (line_of_fields lgc lgc cs w1 w).
Qed.

Lemma SetOutput_leaves_clones_witness :
  let w := set_dests (<[1%nat := closed_file]> (dests worker_world)) worker_world in
  (SetOutput (Some 1%nat) w).2 = Returned
  /\ received_at (output 0%nat main_stack LevelInfo "x" (SetOutput (Some 1%nat) w).1).1 1%nat
     = ["2024/03/09 12:00:05.042 [I]x" ++ nl]
  /\ received_at (output 1%nat main_stack LevelInfo "x" (SetOutput (Some 1%nat) w).1).1 0%nat
     = ["2024/03/09 12:00:05.042 [I][worker] x" ++ nl].
Proof.
  intros w.
  assert (Hr : sink_ready w worker_logger 0%nat accepting).
  { exists 0%nat, (mkMutexWriter false (Some 0%nat)). now repeat split. }
  assert (Hne : 1%nat <> std w) by discriminate.
  assert (Hle0 : LevelInfo <= level std_logger) by discriminate.
  assert (Hle1 : LevelInfo <= level worker_logger) by discriminate.
  exact (SetOutput_leaves_clones w std_logger 1%nat worker_logger 0%nat accepting
           1%nat closed_file main_stack LevelInfo "x"
           eq_refl eq_refl Hne Hr eq_refl Hle0 Hle1).
Defined.

(** X13: after SetLevel the package functions are gated by the new
    minimum: a function whose level is above it is a no-op, any other
    one writes its line to the default logger's destination. *)
Theorem SetLevel_then_emit `{GoLib} (w : World) lg lv (m : Method) cs (msg : Message) d dst :
  loggers w !! std w = Some lg -> sink_ready w lg d dst ->
  (method_level m > lv ->
   std_emit m cs msg (SetLevel lv w).1 = ((SetLevel lv w).1, Returned))
  /\ (method_level m <= lv ->
      received_at (std_emit m cs msg (SetLevel lv w).1).1 d
      = (received dst
         ++ [(time_Format (now w) ++ method_token m ++ tag_text lg
              ++ caller_text lg cs ++ message_body msg
              ++ (if lacks_newline (message_body msg) then nl else ""))%string])%list).
Proof.
  intros Hl Hr.
  destruct (assign_stores w (std w) lg (with_level lv) Hl)
    as (_ & E1 & _ & E3 & E4 & E5 & E6).
  fold (setLevel (std w) lv w) in *. fold (SetLevel lv w) in *.
  set (w1 := (SetLevel lv w).1) in *.
  assert (Hl1 : loggers w1 !! std w1 = Some (with_level lv lg)) by now rewrite E5.
  assert (Hr1 : sink_ready w1 (with_level lv lg) d dst).
  { destruct Hr as (a & mw & Ho & Ha & Hm & Hw & Hd).
    exists a, mw. rewrite E3, E4. now repeat split. }
  replace (std_emit m cs msg w1) with (emit (std w1) m cs msg w1)
    by (destruct m, msg; apply output_own_frame).
  rewrite emit_as_output. split.
  - intros Hgt. apply output_hidden with (with_level lv lg); [exact Hl1 | exact Hgt].
  - intros Hle.
    rewrite (received_after_output w1 _ _ _ _ _ d dst Hl1 Hle Hr1).
    rewrite line_of_text, E6. now destruct m.
Qed.

Lemma SetLevel_then_emit_witness :
  @std_emit ascii_lib MInfo main_stack (Plain [AString "up"]) (SetLevel LevelWarning fresh_world).1
  = ((SetLevel LevelWarning fresh_world).1, Returned)
  /\ received_at (@std_emit ascii_lib MDebug main_stack (Plain [AString "up"])
                    (SetLevel LevelDebug fresh_world).1).1 0%nat
     = ["2024/03/09 12:00:05.042 [D]up" ++ nl].
Proof.
  pose proof (@SetLevel_then_emit ascii_lib fresh_world std_logger LevelWarning MInfo
                main_stack (Plain [AString "up"]) 0%nat accepting eq_refl
                (init_ready accepting noon)) as (HI & _).
  pose proof (@SetLevel_then_emit ascii_lib fresh_world std_logger LevelDebug MDebug
                main_stack (Plain [AString "up"]) 0%nat accepting eq_refl
                (init_ready accepting noon)) as (_ & HD).
  split; [apply HI; reflexivity | apply HD; discriminate].
Defined.

(** ** The default logger *)

(** X17: right after the package is initialised, whatever standard
    error is and whatever the time, the default logger has minimum level
    Info, no tag and no call site attribution: Debug and Debugf are
    no-ops, and the other package functions write the timestamp, their
    token and the body to standard error. *)
Theorem init_defaults `{GoLib} (stderr : Writer) (t : Time) (m : Method) cs (msg : Message) :
  Logger_Level (Default (init stderr t)) (init stderr t) = Some LevelInfo
  /\ (m = MDebug -> std_emit m cs msg (init stderr t) = (init stderr t, Returned))
  /\ (m <> MDebug ->
      received_at (std_emit m cs msg (init stderr t)).1 0%nat
      = (received stderr
         ++ [(time_Format t ++ method_token m ++ message_body msg
              ++ (if lacks_newline (message_body msg) then nl else ""))%string])%list).
Proof.
  split; [reflexivity |].
  replace (std_emit m cs msg (init stderr t))
    with (emit 0%nat m cs msg (init stderr t))
    by (destruct m, msg; apply output_own_frame).
  rewrite emit_as_output. split.
  - intros ->. now apply output_hidden with std_logger.
  - intros Hm.
    assert (Hle : method_level m <= level std_logger) by (destruct m; done).
    rewrite (received_after_output (init stderr t) 0%nat std_logger _ _ _ 0%nat stderr
               eq_refl Hle (init_ready stderr t)).
    rewrite line_of_text. now destruct m.
Qed.

Lemma init_defaults_witness :
  @std_emit ascii_lib MDebug main_stack (Plain [AString "x"]) (init closed_file noon)
  = (init closed_file noon, Returned)
  /\ received_at (@std_emit ascii_lib MWarn main_stack (Plain [AString "x"; AInt 1; AInt 2])
                    (init closed_file noon)).1 0%nat
     = ["2024/03/09 12:00:05.042 [W]x1 2" ++ nl].
Proof.
  pose proof (@init_defaults ascii_lib closed_file noon MDebug main_stack
                (Plain [AString "x"])) as (_ & HD & _).
  pose proof (@init_defaults ascii_lib closed_file noon MWarn main_stack
                (Plain [AString "x"; AInt 1; AInt 2])) as (_ & _ & HW).
  split; [apply HD; reflexivity | apply HW; discriminate].
Defined.
